(** * VizPsyche book build system (build/build.py)

    A shallow embedding of the build script and the properties of its
    dispatcher, manifest loader, path resolver, output-directory manager and
    format builders.

    The script is sequential glue around the filesystem and one external
    converter.  It is modelled in a state-and-exception monad over a world
    made of a filesystem and a chronological trace of the effects performed
    (prints, subprocess spawns, directory operations).  What the script does
    not implement itself is taken as a parameter: the location of the script
    ([BUILD_DIR]), the YAML parser ([safe_load]) and the behaviour of spawned
    processes ([spawn]). *)

From Stdlib Require Import ZArith String Ascii List.
From stdpp Require Import gmap strings list fin_maps.

Local Open Scope string_scope.
Local Open Scope list_scope.

Set Warnings "-register-all".

(** ** Paths (pathlib, POSIX flavour)

    A path is the list of its components below the root; the root is []. *)

Module Pathlib.

Abbreviation path := (list string) (only parsing).

(** Pieces of [s] between occurrences of [sep], as str.split(sep). *)
Fixpoint split_on (sep : ascii) (s : string) : list string :=
  match s with
  | EmptyString => [EmptyString]
  | String c rest =>
      if Ascii.eqb c sep then EmptyString :: split_on sep rest
      else match split_on sep rest with
           | [] => [String c EmptyString]
           | piece :: pieces => String c piece :: pieces
           end
  end.

Definition is_component (s : string) : bool :=
  negb (String.eqb s "" || String.eqb s ".").

(** Components of a path string: empty pieces and "." are dropped. *)
Definition parts (s : string) : path :=
  List.filter is_component (split_on "/"%char s).

Definition is_absolute (s : string) : bool :=
  match s with
  | String c _ => Ascii.eqb c "/"%char
  | EmptyString => false
  end.

(** [base / s]: an absolute right operand replaces the base.  (POSIX keeps
    exactly two leading slashes as a root of their own; that root is not
    told apart from "/" here.) *)
Definition joinpath (base : path) (s : string) : path :=
  if is_absolute s then parts s else base ++ parts s.

(** [p.parent]: the root is its own parent. *)
Definition parent (p : path) : path := removelast p.

(** [str(p)] *)
Definition path_str (p : path) : string :=
  match p with
  | [] => "/"
  | _ => String.concat "" (List.map (fun c => String.append "/" c) p)
  end.

End Pathlib.
Export Pathlib.

Infix "//" := joinpath (at level 40, left associativity).

(** ** Python values and exceptions *)

(** What yaml.safe_load can hand back for the documents considered here:
    the JSON-like core of YAML.  A mapping is the list of its items in
    insertion order.  A float carries no payload: nothing in the script
    depends on its value. *)
Inductive pyval :=
| PyNone
| PyBool (b : bool)
| PyInt (z : Z)
| PyFloat
| PyStr (s : string)
| PyList (items : list pyval)
| PyDict (items : list (pyval * pyval)).

Inductive exn :=
| SystemExit (code : Z)
| CalledProcessError (returncode : Z)
| FileNotFoundError
| FileExistsError
| NotADirectoryError
| IsADirectoryError
| PermissionError
| AttributeError
| TypeError
| YAMLError
| OSError
| OverflowError.

Inductive result (A : Type) :=
| Ok (a : A)
| Raise (e : exn).
Arguments Ok {A} a.
Arguments Raise {A} e.

(** Exit status of the interpreter for a script whose body ended with [r]:
    0 on normal return, the code given to sys.exit, and 1 when an exception
    reaches the top level. *)
Definition exit_status {A} (r : result A) : Z :=
  match r with
  | Ok _ => 0
  | Raise (SystemExit code) => code
  | Raise _ => 1
  end.

Module Py.

(** Key equality against a str key: only an equal str matches. *)
Definition key_is (key : string) (k : pyval) : bool :=
  match k with
  | PyStr s => String.eqb s key
  | _ => false
  end.

Fixpoint dict_lookup (items : list (pyval * pyval)) (key : string) : option pyval :=
  match items with
  | [] => None
  | (k, v) :: rest => if key_is key k then Some v else dict_lookup rest key
  end.

(** [obj.get(key, default)]: only a dict has the attribute [get]. *)
Definition get (obj : pyval) (key : string) (default : pyval) : result pyval :=
  match obj with
  | PyDict items =>
      Ok (match dict_lookup items key with
          | Some v => v
          | None => default
          end)
  | _ => Raise AttributeError
  end.

Definition int_of_bool (b : bool) : Z := if b then 1%Z else 0%Z.

(** An int converts to a float when rounding it to the nearest double does
    not pass the largest one: its magnitude is below 2^1024 - 2^970. *)
Definition converts_to_float (x : Z) : bool :=
  (Z.abs x <? 2 ^ 1024 - 2 ^ 970)%Z.

(** int + float: the int is converted first, OverflowError when it is too
    large. *)
Definition add_int_float (x : Z) : result pyval :=
  if converts_to_float x then Ok PyFloat else Raise OverflowError.

(** [a + b] *)
Definition add (a b : pyval) : result pyval :=
  match a, b with
  | PyList l1, PyList l2 => Ok (PyList (l1 ++ l2))
  | PyStr s1, PyStr s2 => Ok (PyStr (String.append s1 s2))
  | PyInt x, PyInt y => Ok (PyInt (x + y))
  | PyInt x, PyBool y => Ok (PyInt (x + int_of_bool y))
  | PyBool x, PyInt y => Ok (PyInt (int_of_bool x + y))
  | PyBool x, PyBool y => Ok (PyInt (int_of_bool x + int_of_bool y))
  | PyFloat, PyInt y => add_int_float y
  | PyInt x, PyFloat => add_int_float x
  | PyFloat, (PyFloat | PyBool _) => Ok PyFloat
  | PyBool _, PyFloat => Ok PyFloat
  | _, _ => Raise TypeError
  end.

(** [len(v)] *)
Definition len (v : pyval) : result nat :=
  match v with
  | PyList l => Ok (length l)
  | PyStr s => Ok (String.length s)
  | PyDict items => Ok (length items)
  | _ => Raise TypeError
  end.

Fixpoint chars (s : string) : list pyval :=
  match s with
  | EmptyString => []
  | String c rest => PyStr (String c EmptyString) :: chars rest
  end.

(** The items a [for] loop over [v] visits. *)
Definition iter (v : pyval) : result (list pyval) :=
  match v with
  | PyList l => Ok l
  | PyStr s => Ok (chars s)
  | PyDict items => Ok (List.map fst items)
  | _ => Raise TypeError
  end.

End Py.

(** ** The world: filesystem and trace of effects *)

Inductive node :=
| Dir
| File (content : string).

#[global] Instance node_eq_dec : EqDecision node.
Proof. solve_decision. Defined.

Inductive format := PDF | HTML | EPUB.

(** The lines the script prints.  Each constructor stands for one [print]
    call of the source; the elapsed wall-clock time that the success
    messages interpolate is not part of the model. *)
Inductive message :=
| MsgRule                                  (* "=" * 50 *)
| MsgTitle                                 (* "VizPsyche Book Build System" *)
| MsgFoundPandoc (version : string)        (* "[OK] Found {version}" *)
| MsgPandocNotFound                        (* "[ERROR] Pandoc not found. ..." *)
| MsgFoundChapters (n : nat)               (* "[OK] Found {n} chapters" *)
| MsgChapterNotFound (chapter : string)    (* "Warning: Chapter not found: {chapter}" *)
| MsgNoChapters                            (* "[ERROR] No chapters found!" *)
| MsgBuilding (f : format)                 (* "\n[PDF] Building..." *)
| MsgGenerated (f : format) (output : path) (* "[OK] PDF generated: {output} (..s)" *)
| MsgBuildFailed (f : format) (e : exn)    (* "[ERROR] PDF build failed: {e}" *)
| MsgXelatexNotFound                       (* "[ERROR] xelatex not found. ..." *)
| MsgCleaning                              (* "[CLEAN] Cleaning dist/..." *)
| MsgRemoved                               (* "[OK] Removed dist/" *)
| MsgAlreadyClean                          (* "[OK] dist/ already clean" *)
| MsgFinalRule                             (* "\n" + "=" * 50 *)
| MsgBuildComplete                         (* "[OK] Build complete!" *)
| MsgOutput (dist : path)                  (* "  Output: {DIST_DIR}" *)
| MsgCompletedWithErrors.                  (* "[ERROR] Build completed with errors" *)

(** The observable steps of a run, in the order they happen. *)
Inductive effect :=
| Print (m : message)
| Spawn (cmd : list string) (cwd : option path)
| Open (p : path)
| Mkdir (p : path)
| Rmtree (p : path)
| Copytree (src dst : path).

Record world := World {
  fs : gmap path node;
  trace : list effect
}.

(** What becomes of a spawned process: it ran and ended with a return code
    and a standard output, or it could not be started. *)
Inductive proc_outcome :=
| Completed (returncode : Z) (stdout : string)
| SpawnError (e : exn).

(** ** The monad of the script: state and exceptions *)

Definition M (A : Type) : Type := world -> result A * world.

#[global] Instance M_ret : MRet M := fun A (a : A) w => (Ok a, w).

#[global] Instance M_bind : MBind M := fun A B (k : A -> M B) (m : M A) w =>
  match m w with
  | (Ok a, w') => k a w'
  | (Raise e, w') => (Raise e, w')
  end.

Definition raise {A} (e : exn) : M A := fun w => (Raise e, w).

Definition lift {A} (r : result A) : M A := fun w => (r, w).

(** [try: body  except ...: handler]; the handler is [None] on the
    exceptions that no [except] clause matches. *)
Definition try_except {A} (body : M A) (handler : exn -> option (M A)) : M A :=
  fun w =>
    match body w with
    | (Ok a, w') => (Ok a, w')
    | (Raise e, w') =>
        match handler e with
        | Some h => h w'
        | None => (Raise e, w')
        end
    end.

Definition emit (e : effect) : M unit :=
  fun w => (Ok tt, World (fs w) (trace w ++ [e])).

Definition print (m : message) : M unit := emit (Print m).

(** sys.exit(code) *)
Definition sys_exit {A} (code : Z) : M A := raise (SystemExit code).

(** ** Filesystem operations *)

Module Fs.

(** [strip_prefix p q = Some s] when [q = p ++ s]. *)
Fixpoint strip_prefix (p q : path) : option path :=
  match p, q with
  | [], _ => Some q
  | a :: p', b :: q' => if String.eqb a b then strip_prefix p' q' else None
  | _ :: _, [] => None
  end.

Definition outside (p q : path) : Prop := strip_prefix p q = None.

#[global] Instance outside_dec p q : Decision (outside p q).
Proof. unfold outside. apply _. Defined.

(** Everything at or below [p] is gone. *)
Definition remove_tree (p : path) (m : gmap path node) : gmap path node :=
  filter (fun kv => outside p kv.1) m.

(** os.makedirs(done / todo): creates every missing directory on the way;
    the last one must not exist. *)
Fixpoint makedirs_from (done todo : path) (m : gmap path node)
  : result (gmap path node) :=
  match todo with
  | [] => Ok m
  | c :: rest =>
      let q := done ++ [c] in
      match m !! q, rest with
      | None, _ => makedirs_from q rest (<[q := Dir]> m)
      | Some Dir, _ :: _ => makedirs_from q rest m
      | Some (File _), _ :: _ => Raise NotADirectoryError
      | Some _, [] => Raise FileExistsError
      end
  end.

(** The entries strictly below [src] in [from], re-rooted at [dst] and
    written into [m]. *)
Definition copy_entries (src dst : path) (from m : gmap path node)
  : gmap path node :=
  map_fold (fun q n acc =>
              match strip_prefix src q with
              | Some (c :: s) => <[dst ++ c :: s := n]> acc
              | _ => acc
              end) m from.

(** Limits of the system on the length of one name and of a whole path
    (the latter counts the terminating byte). *)
Definition NAME_MAX : nat := 255.
Definition PATH_MAX : nat := 4096.

Definition within_limits (p : path) : bool :=
  (String.length (path_str p) <? PATH_MAX)%nat &&
  forallb (fun c => (String.length c <=? NAME_MAX)%nat) p.

(** The system walking a path from [cur]: every step starts in a
    directory, ".." steps to the parent (the root is its own parent), any
    other name steps down; an over-long name is refused.  [Ok None] is the
    system's "no such file" or "not a directory". *)
Fixpoint walk (m : gmap path node) (cur todo : path) : result (option node) :=
  match todo with
  | [] => Ok (m !! cur)
  | c :: rest =>
      match m !! cur with
      | Some Dir =>
          if String.eqb c ".." then walk m (parent cur) rest
          else if (NAME_MAX <? String.length c)%nat then Raise OSError
          else walk m (cur ++ [c]) rest
      | _ => Ok None
      end
  end.

(** os.stat(p), symbolic links apart: the node the path leads to. *)
Definition stat (m : gmap path node) (p : path) : result (option node) :=
  if (PATH_MAX <=? String.length (path_str p))%nat then Raise OSError
  else walk m [] p.

End Fs.

(** A step that reads and possibly rewrites the filesystem. *)
Definition on_fs {A} (step : gmap path node -> result A * gmap path node) : M A :=
  fun w => let (r, m) := step (fs w) in (r, World m (trace w)).

(** [p.exists()] on one of the script's own paths.  These are built from
    the location of the script, which the interpreter gives in absolute,
    normalised form: the system has nothing to resolve and finds the path
    as it stands ([path_exists_any_normal] below). *)
Definition path_exists (p : path) : M bool :=
  on_fs (fun m => (Ok (bool_decide (is_Some (m !! p))), m)).

(** [p.exists()] on any path, as for a name taken from the manifest, which
    may hold "..": true when os.stat finds a node, false on "no such file"
    and "not a directory"; the error for an over-long name is not among
    those pathlib swallows (up to Python 3.13) and is raised. *)
Definition path_exists_any (p : path) : M bool :=
  on_fs (fun m =>
    match Fs.stat m p with
    | Ok node => (Ok (bool_decide (is_Some node)), m)
    | Raise e => (Raise e, m)
    end).

(** [p.mkdir(exist_ok=...)], without [parents]: the parent must be there. *)
Definition mkdir (p : path) (exist_ok : bool) : M unit :=
  _ ← emit (Mkdir p);
  on_fs (fun m =>
    match m !! p with
    | Some Dir => if exist_ok then (Ok tt, m) else (Raise FileExistsError, m)
    | Some (File _) => (Raise FileExistsError, m)
    | None =>
        match m !! parent p with
        | Some Dir => (Ok tt, <[p := Dir]> m)
        | Some (File _) => (Raise NotADirectoryError, m)
        | None => (Raise FileNotFoundError, m)
        end
    end).

(** shutil.rmtree(p) *)
Definition rmtree (p : path) : M unit :=
  _ ← emit (Rmtree p);
  on_fs (fun m =>
    match m !! p with
    | Some Dir => (Ok tt, Fs.remove_tree p m)
    | Some (File _) => (Raise NotADirectoryError, m)
    | None => (Raise FileNotFoundError, m)
    end).

(** shutil.copytree(src, dst): [src] must be a directory and [dst] must not
    exist; [dst] is created with its missing parents and receives a copy of
    everything below [src]. *)
Definition copytree (src dst : path) : M unit :=
  _ ← emit (Copytree src dst);
  on_fs (fun m =>
    match m !! src with
    | Some Dir =>
        match Fs.makedirs_from [] dst m with
        | Ok m' => (Ok tt, Fs.copy_entries src dst m m')
        | Raise e => (Raise e, m)
        end
    | Some (File _) => (Raise NotADirectoryError, m)
    | None => (Raise FileNotFoundError, m)
    end).

(** [with open(p, "r") as f: f.read()] *)
Definition read_file (p : path) : M string :=
  _ ← emit (Open p);
  on_fs (fun m =>
    match m !! p with
    | Some (File content) => (Ok content, m)
    | Some Dir => (Raise IsADirectoryError, m)
    | None => (Raise FileNotFoundError, m)
    end).

(** ** The script *)

(** What subprocess.run makes of the outcome of a process: with [check], a
    non-zero return code becomes CalledProcessError; a process that could
    not be started raises what the system reported. *)
Definition run_result (o : proc_outcome) (check : bool) : result (Z * string) :=
  match o with
  | Completed returncode stdout =>
      if check && negb (returncode =? 0)%Z
      then Raise (CalledProcessError returncode)
      else Ok (returncode, stdout)
  | SpawnError e => Raise e
  end.

(** The positional argument, after argparse has checked it against
    [choices]; any other word is rejected by the parser before [main]
    dispatches. *)
Inductive command := CmdPdf | CmdHtml | CmdEpub | CmdAll | CmdClean.

Definition command_eqb (a b : command) : bool :=
  match a, b with
  | CmdPdf, CmdPdf | CmdHtml, CmdHtml | CmdEpub, CmdEpub
  | CmdAll, CmdAll | CmdClean, CmdClean => true
  | _, _ => false
  end.

(** [command in (a, b)] *)
Definition command_in (c : command) (cs : list command) : bool :=
  existsb (command_eqb c) cs.

Section Script.

(** Directory of the script: [Path(__file__).parent]. *)
Variable BUILD_DIR : path.

(** yaml.safe_load, on the text of a file. *)
Variable safe_load : string -> result pyval.

(** The operating system running [cmd] in directory [cwd] ([None]: the
    caller's) on a filesystem: what became of the process, and the
    filesystem it leaves. *)
Variable spawn :
  list string -> option path -> gmap path node -> proc_outcome * gmap path node.

Definition DOCS_DIR : path := parent BUILD_DIR.
Definition DIST_DIR : path := DOCS_DIR // "dist".
Definition TEMPLATES_DIR : path := BUILD_DIR // "templates".
Definition CHAPTERS_FILE : path := BUILD_DIR // "chapters.yaml".
Definition METADATA_FILE : path := BUILD_DIR // "metadata.yaml".
Definition EISVOGEL_TEMPLATE : path :=
  TEMPLATES_DIR // "pandoc-latex-template" // "template-multi-file" // "eisvogel.latex".
Definition STYLE_CSS : path := TEMPLATES_DIR // "style.css".

(** subprocess.run(cmd, check=..., cwd=...): returns the return code and
    the standard output. *)
Definition subprocess_run (cmd : list string) (cwd : option path) (check : bool)
  : M (Z * string) :=
  _ ← emit (Spawn cmd cwd);
  on_fs (fun m =>
    let (outcome, m') := spawn cmd cwd m in
    (run_result outcome check, m')).

(** [s.split("\n")[0]] *)
Definition first_line (s : string) : string :=
  hd EmptyString (split_on "010"%char s).

Definition load_chapters : M pyval :=
  text ← read_file CHAPTERS_FILE;
  config ← lift (safe_load text);
  chapters ← lift (Py.get config "chapters" (PyList []));
  appendices ← lift (Py.get config "appendices" (PyList []));
  lift (Py.add chapters appendices).

(** The body of the [for] loop of [get_chapter_paths], over the items
    still to visit, with the list [paths] built so far. *)
Fixpoint get_chapter_paths_loop (items : list pyval) (paths : list path)
  : M (list path) :=
  match items with
  | [] => mret paths
  | PyStr chapter :: rest =>
      let path := DOCS_DIR // chapter in
      found ← path_exists_any path;
      if found : bool then get_chapter_paths_loop rest (paths ++ [path])
      else
        _ ← print (MsgChapterNotFound chapter);
        get_chapter_paths_loop rest paths
  | _ :: _ => raise TypeError
  end.

Definition get_chapter_paths (chapters : pyval) : M (list path) :=
  items ← lift (Py.iter chapters);
  get_chapter_paths_loop items [].

Definition ensure_dist_dir : M unit := mkdir DIST_DIR true.

Definition check_pandoc : M bool :=
  try_except
    (result ← subprocess_run ["pandoc"; "--version"] None true;
     let version := first_line result.2 in
     _ ← print (MsgFoundPandoc version);
     mret true)
    (fun e =>
       match e with
       | CalledProcessError _ | FileNotFoundError =>
           Some (_ ← print MsgPandocNotFound; mret false)
       | _ => None
       end).

Definition pdf_cmd (chapters : list path) : list string :=
  let output := DIST_DIR // "vizpsyche-book.pdf" in
  ["pandoc"] ++ List.map path_str chapters ++
  ["-o"; path_str output;
   "--metadata-file"; path_str METADATA_FILE;
   "--template"; path_str EISVOGEL_TEMPLATE;
   "--pdf-engine"; "xelatex";
   "--syntax-highlighting=zenburn";
   "--toc";
   "--toc-depth=2";
   "--number-sections";
   "--top-level-division=chapter";
   "--resource-path"; path_str DOCS_DIR;
   "-V"; "geometry:margin=1in";
   "-V"; "fontsize=11pt"].

Definition build_pdf (chapters : list path) : M bool :=
  _ ← print (MsgBuilding PDF);
  let output := DIST_DIR // "vizpsyche-book.pdf" in
  try_except
    (_ ← subprocess_run (pdf_cmd chapters) (Some DOCS_DIR) true;
     _ ← print (MsgGenerated PDF output);
     mret true)
    (fun e =>
       match e with
       | CalledProcessError _ => Some (_ ← print (MsgBuildFailed PDF e); mret false)
       | FileNotFoundError => Some (_ ← print MsgXelatexNotFound; mret false)
       | _ => None
       end).

Definition html_cmd (chapters : list path) : list string :=
  let output := DIST_DIR // "html" // "index.html" in
  ["pandoc"] ++ List.map path_str chapters ++
  ["-o"; path_str output;
   "--metadata-file"; path_str METADATA_FILE;
   "--standalone";
   "--css"; path_str STYLE_CSS;
   "--embed-resources";
   "--toc";
   "--toc-depth=2";
   "--number-sections";
   "--syntax-highlighting=zenburn";
   "--resource-path"; path_str DOCS_DIR;
   "-V"; "title-prefix=VizPsyche"].

(** Lines 128-134 of [build_html]: the copy of the images. *)
Definition copy_images (images_src images_dst : path) : M unit :=
  src_exists ← path_exists images_src;
  if src_exists : bool then
    dst_exists ← path_exists images_dst;
    _ ← (if dst_exists : bool then rmtree images_dst else mret tt);
    copytree images_src images_dst
  else mret tt.

(** Lines 121-134 of [build_html]: announcement, output directory and
    images. *)
Definition build_html_prepare : M unit :=
  _ ← print (MsgBuilding HTML);
  let html_dir := DIST_DIR // "html" in
  _ ← mkdir html_dir true;
  let images_src := DOCS_DIR // "images" in
  let images_dst := html_dir // "images" in
  copy_images images_src images_dst.

Definition build_html (chapters : list path) : M bool :=
  _ ← build_html_prepare;
  let output := DIST_DIR // "html" // "index.html" in
  try_except
    (_ ← subprocess_run (html_cmd chapters) (Some DOCS_DIR) true;
     _ ← print (MsgGenerated HTML output);
     mret true)
    (fun e =>
       match e with
       | CalledProcessError _ => Some (_ ← print (MsgBuildFailed HTML e); mret false)
       | _ => None
       end).

Definition epub_cmd (chapters : list path) : list string :=
  let output := DIST_DIR // "vizpsyche-book.epub" in
  ["pandoc"] ++ List.map path_str chapters ++
  ["-o"; path_str output;
   "--metadata-file"; path_str METADATA_FILE;
   "--css"; path_str STYLE_CSS;
   "--toc";
   "--toc-depth=2";
   "--number-sections";
   "--syntax-highlighting=zenburn";
   "--resource-path"; path_str DOCS_DIR;
   "--split-level=1"].

Definition build_epub (chapters : list path) : M bool :=
  _ ← print (MsgBuilding EPUB);
  let output := DIST_DIR // "vizpsyche-book.epub" in
  try_except
    (_ ← subprocess_run (epub_cmd chapters) (Some DOCS_DIR) true;
     _ ← print (MsgGenerated EPUB output);
     mret true)
    (fun e =>
       match e with
       | CalledProcessError _ => Some (_ ← print (MsgBuildFailed EPUB e); mret false)
       | _ => None
       end).

Definition clean : M unit :=
  _ ← print MsgCleaning;
  dist_exists ← path_exists DIST_DIR;
  if dist_exists : bool then
    _ ← rmtree DIST_DIR;
    print MsgRemoved
  else print MsgAlreadyClean.

(** Lines 232-245 of [main]: dependency check, manifest, path resolution
    and output directory; returns [chapter_paths]. *)
Definition main_prepare : M (list path) :=
  pandoc_ok ← check_pandoc;
  if negb pandoc_ok then sys_exit 1
  else
    chapters_list ← load_chapters;
    n ← lift (Py.len chapters_list);
    _ ← print (MsgFoundChapters n);
    chapter_paths ← get_chapter_paths chapters_list;
    match chapter_paths with
    | [] => _ ← print MsgNoChapters; sys_exit 1
    | _ :: _ => _ ← ensure_dist_dir; mret chapter_paths
    end.

(** Lines 247-265 of [main]: the requested builders and the verdict. *)
Definition main_build (command : command) (chapter_paths : list path) : M unit :=
  let success := true in
  success ← (if command_in command [CmdPdf; CmdAll]
             then ok ← build_pdf chapter_paths; mret (ok && success)
             else mret success);
  success ← (if command_in command [CmdHtml; CmdAll]
             then ok ← build_html chapter_paths; mret (ok && success)
             else mret success);
  success ← (if command_in command [CmdEpub; CmdAll]
             then ok ← build_epub chapter_paths; mret (ok && success)
             else mret success);
  _ ← print MsgFinalRule;
  if success : bool then
    _ ← print MsgBuildComplete;
    print (MsgOutput DIST_DIR)
  else
    _ ← print MsgCompletedWithErrors;
    sys_exit 1.

Definition main (command : command) : M unit :=
  _ ← print MsgRule;
  _ ← print MsgTitle;
  _ ← print MsgRule;
  if command_eqb command CmdClean then clean
  else
    chapter_paths ← main_prepare;
    main_build command chapter_paths.

End Script.

(** ** Specification vocabulary *)

(** A mapping's field [key] holds the list [l]; an absent key counts as the
    empty list. *)
Definition has_list_field (items : list (pyval * pyval)) (key : string)
    (l : list pyval) : Prop :=
  Py.dict_lookup items key = Some (PyList l) \/
  (Py.dict_lookup items key = None /\ l = []).

(** The filesystem is a tree: whatever exists below the root sits in a
    directory. *)
Definition wf_fs (m : gmap path node) : Prop :=
  map_Forall (fun p _ => p <> [] -> m !! parent p = Some Dir) m.

#[global] Instance wf_fs_dec (m : gmap path node) : Decision (wf_fs m).
Proof. unfold wf_fs. apply _. Defined.

(** Whether the system finds the path of [name] joined to the document
    root. *)
Definition present (docs : path) (m : gmap path node) (name : string) : bool :=
  match Fs.stat m (if is_absolute name then parts name else docs ++ parts name) with
  | Ok (Some _) => true
  | _ => false
  end.

(** [docs / name], component by component. *)
Definition joined (docs : path) (name : string) : path :=
  if is_absolute name then parts name else docs ++ parts name.

(** The names whose joined paths the system accepts for their length. *)
Definition acceptable (docs : path) (names : list string) : Prop :=
  Forall (fun name => Fs.within_limits (joined docs name) = true) names.

(** The warning printed for a missing chapter. *)
Definition warning (name : string) : effect := Print (MsgChapterNotFound name).

(** The version query of the environment check. *)
Definition version_cmd : list string := ["pandoc"; "--version"].

(** The environment check fails: the executable is missing or the version
    query ends with a non-zero return code. *)
Definition pandoc_unavailable (o : proc_outcome) : Prop :=
  match o with
  | SpawnError FileNotFoundError => True
  | Completed returncode _ => returncode <> 0%Z
  | SpawnError _ => False
  end.

(** The three lines printed when [main] starts. *)
Definition banner : list effect := [Print MsgRule; Print MsgTitle; Print MsgRule].

(** The run from [w] to [w'] performed exactly the effects [t]. *)
Definition extends (w w' : world) (t : list effect) : Prop :=
  trace w' = trace w ++ t.

Definition is_warning (e : effect) : Prop :=
  match e with Print (MsgChapterNotFound _) => True | _ => False end.

(** The lines that close a build. *)
Definition verdict (dist : path) (success : bool) : list effect :=
  if success
  then [Print MsgFinalRule; Print MsgBuildComplete; Print (MsgOutput dist)]
  else [Print MsgFinalRule; Print MsgCompletedWithErrors].

Definition is_spawn (e : effect) : Prop :=
  match e with Spawn _ _ => True | _ => False end.

(** The command that asks for one format alone. *)
Definition command_of (f : format) : command :=
  match f with PDF => CmdPdf | HTML => CmdHtml | EPUB => CmdEpub end.

(** An exception that ends the run with status 1 when nothing catches it. *)
Definition tame (e : exn) : Prop :=
  match e with
  | SystemExit code => code = 1%Z
  | _ => True
  end.

(** Every exception [m] can raise is tame. *)
Definition raises_tame {A} (m : M A) : Prop :=
  forall w e w', m w = (Raise e, w') -> tame e.


Definition newline : ascii := "010"%char.

(** The character [c] occurs in [s]. *)
Fixpoint occurs (c : ascii) (s : string) : bool :=
  match s with
  | EmptyString => false
  | String c' rest => Ascii.eqb c' c || occurs c rest
  end.

(** The builder of a format, the converter command it assembles, the file
    it asks the converter to write, and what it does before it converts. *)
Definition builder_of (BUILD_DIR : path)
    (spawn : list string -> option path -> gmap path node
             -> proc_outcome * gmap path node)
    (f : format) : list path -> M bool :=
  match f with
  | PDF => build_pdf BUILD_DIR spawn
  | HTML => build_html BUILD_DIR spawn
  | EPUB => build_epub BUILD_DIR spawn
  end.

Definition cmd_of (BUILD_DIR : path) (f : format) : list path -> list string :=
  match f with
  | PDF => pdf_cmd BUILD_DIR
  | HTML => html_cmd BUILD_DIR
  | EPUB => epub_cmd BUILD_DIR
  end.

Definition output_path (BUILD_DIR : path) (f : format) : path :=
  match f with
  | PDF => DIST_DIR BUILD_DIR // "vizpsyche-book.pdf"
  | HTML => DIST_DIR BUILD_DIR // "html" // "index.html"
  | EPUB => DIST_DIR BUILD_DIR // "vizpsyche-book.epub"
  end.

Definition announce (BUILD_DIR : path) (f : format) : M unit :=
  match f with
  | HTML => build_html_prepare BUILD_DIR
  | _ => print (MsgBuilding f)
  end.

(** ** A small book

    A concrete document tree, manifest and converter behaviours, on which
    the script can be run. *)

Module Demo.

Definition build_dir : path := ["book"; "build"].

(** A manifest with two chapters, one of them missing on disk, and one
    appendix. *)
Definition manifest : pyval :=
  PyDict [(PyStr "chapters", PyList [PyStr "intro.md"; PyStr "ghost.md"]);
          (PyStr "appendices", PyList [PyStr "notes.md"])].

(** A manifest none of whose files is on disk. *)
Definition ghost_manifest : pyval :=
  PyDict [(PyStr "chapters", PyList [PyStr "ghost.md"])].

(** The parser, on the manifest texts used below; the empty text is the
    empty document. *)
Definition safe_load (text : string) : result pyval :=
  if String.eqb text "book" then Ok manifest
  else if String.eqb text "ghosts" then Ok ghost_manifest
  else if String.eqb text "" then Ok PyNone
  else Raise YAMLError.

Definition sources (manifest_text : string) : list (path * node) :=
  [([], Dir);
   (["book"], Dir);
   (["book"; "build"], Dir);
   (["book"; "build"; "chapters.yaml"], File manifest_text);
   (["book"; "intro.md"], File "# Intro");
   (["book"; "notes.md"], File "# Notes");
   (["book"; "images"], Dir);
   (["book"; "images"; "logo.png"], File "logo")].

(** The book before any build. *)
Definition tree : gmap path node := list_to_map (sources "book").

(** The book after an earlier HTML build, with a stale image. *)
Definition built_tree : gmap path node :=
  list_to_map (sources "book" ++
               [(["book"; "dist"], Dir);
                (["book"; "dist"; "html"], Dir);
                (["book"; "dist"; "html"; "images"], Dir);
                (["book"; "dist"; "html"; "images"; "old.png"], File "old")]).

(** Only the root directory: the document root itself is missing. *)
Definition bare_tree : gmap path node := list_to_map [([], Dir)].

Definition start (m : gmap path node) : world := World m [].

Fixpoint output_of (cmd : list string) : option path :=
  match cmd with
  | [] => None
  | flag :: rest =>
      match rest with
      | out :: _ => if String.eqb flag "-o" then Some (parts out) else output_of rest
      | [] => None
      end
  end.

(** A working converter: it writes the file named after "-o". *)
Definition pandoc (cmd : list string) (cwd : option path) (m : gmap path node)
  : proc_outcome * gmap path node :=
  (Completed 0 "pandoc 3.1.9
Features: +server +lua",
   match output_of cmd with
   | Some out => <[out := File "converted"]> m
   | None => m
   end).

(** A converter without a working PDF engine: PDF conversions end with
    return code 43, everything else works. *)
Definition pandoc_no_latex (cmd : list string) (cwd : option path)
    (m : gmap path node) : proc_outcome * gmap path node :=
  if existsb (String.eqb "--pdf-engine") cmd then (Completed 43 "", m)
  else pandoc cmd cwd m.

(** No converter on the machine. *)
Definition no_pandoc (cmd : list string) (cwd : option path) (m : gmap path node)
  : proc_outcome * gmap path node :=
  (SpawnError FileNotFoundError, m).

End Demo.

(** ** Reasoning in the monad *)

Lemma bind_unfold {A B} (m : M A) (k : A -> M B) (w : world) :
  (m ≫= k) w =
  match m w with
  | (Ok a, w') => k a w'
  | (Raise e, w') => (Raise e, w')
  end.
Proof. reflexivity. Qed.

Lemma emit_eq e w : emit e w = (Ok tt, World (fs w) (trace w ++ [e])).
Proof. reflexivity. Qed.

Lemma print_eq m w : print m w = (Ok tt, World (fs w) (trace w ++ [Print m])).
Proof. reflexivity. Qed.

Lemma path_exists_eq p w :
  path_exists p w = (Ok (bool_decide (is_Some (fs w !! p))), w).
Proof. destruct w. reflexivity. Qed.

Lemma read_file_eq p w :
  read_file p w =
  (match fs w !! p with
   | Some (File content) => Ok content
   | Some Dir => Raise IsADirectoryError
   | None => Raise FileNotFoundError
   end, World (fs w) (trace w ++ [Open p])).
Proof.
  unfold read_file. rewrite bind_unfold, emit_eq. unfold on_fs. simpl.
  destruct (fs w !! p) as [[|content]|]; reflexivity.
Qed.

Ltac monad_step :=
  repeat first
    [ rewrite bind_unfold
    | rewrite emit_eq
    | rewrite path_exists_eq
    | progress unfold print, lift, raise, sys_exit
    | progress cbn [fs trace mret M_ret] ].

Section Properties.

Variable BUILD_DIR : path.
Variable safe_load : string -> result pyval.
Variable spawn :
  list string -> option path -> gmap path node -> proc_outcome * gmap path node.

Local Abbreviation DOCS := (DOCS_DIR BUILD_DIR).
Local Abbreviation DIST := (DIST_DIR BUILD_DIR).
Local Abbreviation MANIFEST := (CHAPTERS_FILE BUILD_DIR).
Local Abbreviation present := (present DOCS).

(** *** Manifest loader *)

Lemma load_chapters_eq (w : world) :
  load_chapters BUILD_DIR safe_load w =
  (match fs w !! MANIFEST with
   | Some (File text) =>
       match safe_load text with
       | Ok config =>
           match Py.get config "chapters" (PyList []) with
           | Ok chapters =>
               match Py.get config "appendices" (PyList []) with
               | Ok appendices => Py.add chapters appendices
               | Raise e => Raise e
               end
           | Raise e => Raise e
           end
       | Raise e => Raise e
       end
   | Some Dir => Raise IsADirectoryError
   | None => Raise FileNotFoundError
   end, World (fs w) (trace w ++ [Open MANIFEST])).
Proof.
  unfold load_chapters. rewrite bind_unfold, read_file_eq.
  destruct (fs w !! MANIFEST) as [[|text]|]; try reflexivity.
  monad_step. destruct (safe_load text) as [config|e]; [|reflexivity].
  monad_step. destruct (Py.get config "chapters" _); [|reflexivity].
  monad_step. destruct (Py.get config "appendices" _); reflexivity.
Qed.

Lemma get_list_field items key l :
  has_list_field items key l ->
  Py.get (PyDict items) key (PyList []) = Ok (PyList l).
Proof.
  unfold Py.get. intros [-> | [-> ->]]; reflexivity.
Qed.

(** C2.  For a manifest that is a mapping whose "chapters" and
    "appendices" fields are lists, the loader returns the chapters followed
    by the appendices, each in its own order; an absent key contributes
    the empty list and the loader still succeeds.  The only effect is the
    opening of the manifest file. *)
Theorem load_chapters_concat (w : world) text items chs apps :
  fs w !! MANIFEST = Some (File text) ->
  safe_load text = Ok (PyDict items) ->
  has_list_field items "chapters" chs ->
  has_list_field items "appendices" apps ->
  load_chapters BUILD_DIR safe_load w =
  (Ok (PyList (chs ++ apps)), World (fs w) (trace w ++ [Open MANIFEST])).
Proof.
  intros Hfile Hload Hchs Happs.
  rewrite load_chapters_eq, Hfile, Hload.
  rewrite (get_list_field _ _ _ Hchs), (get_list_field _ _ _ Happs).
  reflexivity.
Qed.

(** C10.  When the manifest parses to anything but a mapping (the empty
    document gives None), the loader raises AttributeError and returns no
    list; the empty-list defaults are applied only to a mapping, where a
    document lacking both keys yields the empty list. *)
Theorem load_chapters_requires_mapping (w : world) text doc :
  fs w !! MANIFEST = Some (File text) ->
  safe_load text = Ok doc ->
  match doc with
  | PyDict items =>
      Py.dict_lookup items "chapters" = None ->
      Py.dict_lookup items "appendices" = None ->
      (load_chapters BUILD_DIR safe_load w).1 = Ok (PyList [])
  | _ => (load_chapters BUILD_DIR safe_load w).1 = Raise AttributeError
  end.
Proof.
  intros Hfile Hload. rewrite load_chapters_eq, Hfile, Hload.
  destruct doc; try reflexivity.
  intros Hc Ha. cbn [Py.get fst]. rewrite Hc, Ha. reflexivity.
Qed.

(** *** Path resolver *)

Lemma path_exists_any_eq p (w : world) :
  path_exists_any p w =
  (match Fs.stat (fs w) p with
   | Ok node => Ok (bool_decide (is_Some node))
   | Raise e => Raise e
   end, w).
Proof.
  unfold path_exists_any, on_fs. destruct w as [m t]. cbn [fs trace].
  destruct (Fs.stat m p); reflexivity.
Qed.

Lemma walk_accepts (m : gmap path node) (todo : path) :
  forallb (fun c => (String.length c <=? Fs.NAME_MAX)%nat) todo = true ->
  forall cur, exists node, Fs.walk m cur todo = Ok node.
Proof.
  induction todo as [|c rest IH]; intros Hlen cur; cbn [Fs.walk]; [eauto|].
  cbn [forallb] in Hlen. apply andb_true_iff in Hlen as [Hc Hrest].
  destruct (m !! cur) as [[|content]|]; eauto.
  destruct (String.eqb c ".."); [apply IH, Hrest|].
  apply Nat.leb_le in Hc.
  destruct (Nat.ltb_spec Fs.NAME_MAX (String.length c)); [lia|].
  apply IH, Hrest.
Qed.

Lemma stat_accepts (m : gmap path node) (p : path) :
  Fs.within_limits p = true -> exists node, Fs.stat m p = Ok node.
Proof.
  unfold Fs.within_limits, Fs.stat. intros H.
  apply andb_true_iff in H as [Hpath Hnames]. apply Nat.ltb_lt in Hpath.
  destruct (Nat.leb_spec Fs.PATH_MAX (String.length (path_str p))); [lia|].
  apply walk_accepts, Hnames.
Qed.

Lemma path_exists_any_present (name : string) (w : world) :
  Fs.within_limits (joined DOCS name) = true ->
  path_exists_any (DOCS // name) w = (Ok (present (fs w) name), w).
Proof.
  intros Hfit. rewrite path_exists_any_eq. unfold present.
  change (DOCS // name) with (joined DOCS name).
  change (if is_absolute name then parts name else DOCS ++ parts name)
    with (joined DOCS name).
  destruct (stat_accepts (fs w) _ Hfit) as [node ->].
  destruct node; reflexivity.
Qed.

Lemma get_chapter_paths_loop_app (names : list string) :
  acceptable DOCS names ->
  forall (tail : list pyval) (paths : list path) (w : world),
    get_chapter_paths_loop BUILD_DIR (List.map PyStr names ++ tail) paths w =
    get_chapter_paths_loop BUILD_DIR tail
      (paths ++ List.map (joined DOCS) (List.filter (present (fs w)) names))
      (World (fs w)
             (trace w ++
              List.map warning (List.filter (fun n => negb (present (fs w) n)) names))).
Proof.
  induction names as [|name names IH]; intros Hfit tail paths w.
  - cbn. rewrite !app_nil_r. destruct w; reflexivity.
  - apply Forall_cons in Hfit as [Hname Hnames].
    cbn [List.map app get_chapter_paths_loop List.filter].
    rewrite bind_unfold, path_exists_any_present by exact Hname.
    destruct (present (fs w) name) eqn:Hp; cbn [negb].
    + rewrite IH by exact Hnames. cbn [List.map]. rewrite <- app_assoc. reflexivity.
    + rewrite bind_unfold, print_eq. rewrite IH by exact Hnames.
      cbn [fs trace List.map]. rewrite <- app_assoc. reflexivity.
Qed.

Lemma get_chapter_paths_loop_eq (names : list string) :
  acceptable DOCS names ->
  forall (paths : list path) (w : world),
    get_chapter_paths_loop BUILD_DIR (List.map PyStr names) paths w =
    (Ok (paths ++ List.map (joined DOCS) (List.filter (present (fs w)) names)),
     World (fs w)
           (trace w ++
            List.map warning (List.filter (fun n => negb (present (fs w) n)) names))).
Proof.
  intros Hfit paths w.
  pose proof (get_chapter_paths_loop_app names Hfit [] paths w) as H.
  rewrite app_nil_r in H. exact H.
Qed.



(** *** Subprocesses and the environment check *)

Lemma subprocess_run_eq cmd cwd check (w : world) :
  subprocess_run spawn cmd cwd check w =
  (run_result (spawn cmd cwd (fs w)).1 check,
   World (spawn cmd cwd (fs w)).2 (trace w ++ [Spawn cmd cwd])).
Proof.
  unfold subprocess_run. rewrite bind_unfold, emit_eq. unfold on_fs.
  cbn [fs trace]. destruct (spawn cmd cwd (fs w)) as [outcome m']. reflexivity.
Qed.

Lemma check_pandoc_eq (w : world) :
  check_pandoc spawn w =
  let o := (spawn version_cmd None (fs w)).1 in
  let m := (spawn version_cmd None (fs w)).2 in
  match run_result o true with
  | Ok r =>
      (Ok true,
       World m (trace w ++ [Spawn version_cmd None; Print (MsgFoundPandoc (first_line r.2))]))
  | Raise (CalledProcessError _) | Raise FileNotFoundError =>
      (Ok false,
       World m (trace w ++ [Spawn version_cmd None; Print MsgPandocNotFound]))
  | Raise e => (Raise e, World m (trace w ++ [Spawn version_cmd None]))
  end.
Proof.
  unfold check_pandoc, try_except. rewrite bind_unfold, subprocess_run_eq.
  fold version_cmd. cbv zeta.
  destruct (run_result _ true) as [r|e].
  - monad_step. rewrite <- app_assoc. reflexivity.
  - destruct e; monad_step; rewrite <- ?app_assoc; reflexivity.
Qed.

Lemma check_pandoc_unavailable (w : world) :
  pandoc_unavailable (spawn version_cmd None (fs w)).1 ->
  check_pandoc spawn w =
  (Ok false,
   World (spawn version_cmd None (fs w)).2
         (trace w ++ [Spawn version_cmd None; Print MsgPandocNotFound])).
Proof.
  intros H. rewrite check_pandoc_eq. cbv zeta.
  destruct (spawn version_cmd None (fs w)).1 as [rc out|e]; cbn in *.
  - destruct (Z.eqb_spec rc 0); [contradiction|]. reflexivity.
  - destruct e; try contradiction. reflexivity.
Qed.

(** *** Output directory manager *)

Lemma mkdir_eq p exist_ok (w : world) :
  mkdir p exist_ok w =
  match fs w !! p with
  | Some Dir =>
      (if exist_ok then Ok tt else Raise FileExistsError,
       World (fs w) (trace w ++ [Mkdir p]))
  | Some (File _) => (Raise FileExistsError, World (fs w) (trace w ++ [Mkdir p]))
  | None =>
      match fs w !! parent p with
      | Some Dir => (Ok tt, World (<[p := Dir]> (fs w)) (trace w ++ [Mkdir p]))
      | Some (File _) =>
          (Raise NotADirectoryError, World (fs w) (trace w ++ [Mkdir p]))
      | None => (Raise FileNotFoundError, World (fs w) (trace w ++ [Mkdir p]))
      end
  end.
Proof.
  unfold mkdir. rewrite bind_unfold, emit_eq. unfold on_fs. cbn [fs trace].
  destruct (fs w !! p) as [[|c]|]; try reflexivity.
  - destruct exist_ok; reflexivity.
  - destruct (fs w !! parent p) as [[|c]|]; reflexivity.
Qed.

Lemma rmtree_eq p (w : world) :
  rmtree p w =
  match fs w !! p with
  | Some Dir => (Ok tt, World (Fs.remove_tree p (fs w)) (trace w ++ [Rmtree p]))
  | Some (File _) =>
      (Raise NotADirectoryError, World (fs w) (trace w ++ [Rmtree p]))
  | None => (Raise FileNotFoundError, World (fs w) (trace w ++ [Rmtree p]))
  end.
Proof.
  unfold rmtree. rewrite bind_unfold, emit_eq. unfold on_fs. cbn [fs trace].
  destruct (fs w !! p) as [[|c]|]; reflexivity.
Qed.

Lemma parent_joined (d : path) (c : string) : parent (d ++ [c]) = d.
Proof. unfold parent. apply removelast_last. Qed.

Lemma DIST_eq : DIST = DOCS ++ ["dist"].
Proof. reflexivity. Qed.

Lemma parent_DIST : parent DIST = DOCS.
Proof. rewrite DIST_eq. apply parent_joined. Qed.

(** *** Prefixes and subtrees *)

Lemma strip_prefix_app (p s : path) : Fs.strip_prefix p (p ++ s) = Some s.
Proof.
  induction p as [|a p IH]; [reflexivity|].
  cbn. rewrite String.eqb_refl. exact IH.
Qed.

Lemma strip_prefix_Some (p q s : path) :
  Fs.strip_prefix p q = Some s -> q = p ++ s.
Proof.
  revert q. induction p as [|a p IH]; intros q H.
  - cbn in H. injection H as ->. reflexivity.
  - destruct q as [|b q]; [discriminate|]. cbn in H.
    destruct (String.eqb_spec a b) as [->|]; [|discriminate].
    cbn. f_equal. auto.
Qed.

Lemma strip_prefix_common (d p q : path) :
  Fs.strip_prefix (d ++ p) (d ++ q) = Fs.strip_prefix p q.
Proof.
  induction d as [|a d IH]; [reflexivity|].
  cbn. rewrite String.eqb_refl. exact IH.
Qed.

Lemma remove_tree_lookup (p q : path) (m : gmap path node) :
  Fs.remove_tree p m !! q =
  match Fs.strip_prefix p q with
  | Some _ => None
  | None => m !! q
  end.
Proof.
  unfold Fs.remove_tree.
  destruct (Fs.strip_prefix p q) as [s|] eqn:Hs.
  - apply map_lookup_filter_None. right. intros x _ Hout.
    unfold Fs.outside in Hout. simpl in Hout. congruence.
  - destruct (m !! q) as [n|] eqn:Hq.
    + apply map_lookup_filter_Some. split; [exact Hq|exact Hs].
    + apply map_lookup_filter_None. left. exact Hq.
Qed.

Lemma remove_tree_below (p s : path) (m : gmap path node) :
  Fs.remove_tree p m !! (p ++ s) = None.
Proof. rewrite remove_tree_lookup, strip_prefix_app. reflexivity. Qed.

Lemma remove_tree_outside (p q : path) (m : gmap path node) :
  Fs.outside p q -> Fs.remove_tree p m !! q = m !! q.
Proof. intros H. rewrite remove_tree_lookup, H. reflexivity. Qed.

(** *** Clean *)

Lemma clean_eq (w : world) :
  clean BUILD_DIR w =
  match fs w !! DIST with
  | Some Dir =>
      (Ok tt,
       World (Fs.remove_tree DIST (fs w))
             (trace w ++ [Print MsgCleaning; Rmtree DIST; Print MsgRemoved]))
  | Some (File _) =>
      (Raise NotADirectoryError,
       World (fs w) (trace w ++ [Print MsgCleaning; Rmtree DIST]))
  | None =>
      (Ok tt, World (fs w) (trace w ++ [Print MsgCleaning; Print MsgAlreadyClean]))
  end.
Proof.
  unfold clean. monad_step.
  destruct (fs w !! DIST) as [[|c]|] eqn:Hd.
  - rewrite bool_decide_eq_true_2 by eauto.
    monad_step. rewrite rmtree_eq. cbn [fs trace]. rewrite Hd.
    monad_step. rewrite <- !app_assoc. reflexivity.
  - rewrite bool_decide_eq_true_2 by eauto.
    monad_step. rewrite rmtree_eq. cbn [fs trace]. rewrite Hd.
    rewrite <- !app_assoc. reflexivity.
  - rewrite bool_decide_eq_false_2 by (intros [? ?]; discriminate).
    monad_step. rewrite <- !app_assoc. reflexivity.
Qed.

Lemma main_banner (c : command) (w : world) :
  main BUILD_DIR safe_load spawn c w =
  (if command_eqb c CmdClean then clean BUILD_DIR
   else main_prepare BUILD_DIR safe_load spawn
          ≫= main_build BUILD_DIR spawn c)
    (World (fs w) (trace w ++ banner)).
Proof.
  unfold main, banner. monad_step. rewrite <- !app_assoc. reflexivity.
Qed.

Lemma main_clean_eq (w : world) :
  main BUILD_DIR safe_load spawn CmdClean w =
  match fs w !! DIST with
  | Some Dir =>
      (Ok tt,
       World (Fs.remove_tree DIST (fs w))
             (trace w ++ banner ++ [Print MsgCleaning; Rmtree DIST; Print MsgRemoved]))
  | Some (File _) =>
      (Raise NotADirectoryError,
       World (fs w) (trace w ++ banner ++ [Print MsgCleaning; Rmtree DIST]))
  | None =>
      (Ok tt,
       World (fs w) (trace w ++ banner ++ [Print MsgCleaning; Print MsgAlreadyClean]))
  end.
Proof.
  rewrite main_banner. cbn [command_eqb]. rewrite clean_eq. cbn [fs trace].
  destruct (fs w !! DIST) as [[|c]|]; rewrite <- !app_assoc; reflexivity.
Qed.


(** C5.  For a build command, when the environment check fails (the
    converter is missing, or its version query ends with a non-zero
    return code) the run ends with exit status 1 right after the
    diagnostic: the manifest is never opened.  The [clean] command spawns
    no process at all. *)
Theorem check_pandoc_gates_builds (c : command) (w : world) :
  c <> CmdClean ->
  pandoc_unavailable (spawn version_cmd None (fs w)).1 ->
  let r := main BUILD_DIR safe_load spawn c w in
  let t := banner ++ [Spawn version_cmd None; Print MsgPandocNotFound] in
  r = (Raise (SystemExit 1),
       World (spawn version_cmd None (fs w)).2 (trace w ++ t)) /\
  exit_status r.1 = 1%Z /\
  (forall p, Open p ∉ t) /\
  exists t', trace (main BUILD_DIR safe_load spawn CmdClean w).2 = trace w ++ t' /\
             Forall (fun e => ~ is_spawn e) t'.
Proof.
  intros Hc Hun r t.
  assert (Hr : r = (Raise (SystemExit 1),
                    World (spawn version_cmd None (fs w)).2 (trace w ++ t))).
  { subst r t. rewrite main_banner.
    destruct c; try contradiction; cbn [command_eqb];
      unfold main_prepare; rewrite !bind_unfold;
      rewrite check_pandoc_unavailable by exact Hun;
      cbn [negb fs trace]; unfold sys_exit, raise;
      rewrite <- !app_assoc; reflexivity. }
  split; [exact Hr|]. split; [rewrite Hr; reflexivity|]. split.
  - intros p Hin. subst t. unfold banner in Hin. cbn in Hin.
    repeat (apply elem_of_cons in Hin as [Hin|Hin]; [discriminate|]).
    inversion Hin.
  - rewrite main_clean_eq.
    destruct (fs w !! DIST) as [[|content]|]; cbn [snd trace];
      eexists; (split; [reflexivity|]);
      unfold banner; repeat constructor; cbn; tauto.
Qed.

(** *** Ensure *)

Lemma ensure_dist_dir_eq (w : world) :
  ensure_dist_dir BUILD_DIR w =
  match fs w !! DIST with
  | Some Dir => (Ok tt, World (fs w) (trace w ++ [Mkdir DIST]))
  | Some (File _) => (Raise FileExistsError, World (fs w) (trace w ++ [Mkdir DIST]))
  | None =>
      match fs w !! DOCS with
      | Some Dir => (Ok tt, World (<[DIST := Dir]> (fs w)) (trace w ++ [Mkdir DIST]))
      | Some (File _) =>
          (Raise NotADirectoryError, World (fs w) (trace w ++ [Mkdir DIST]))
      | None => (Raise FileNotFoundError, World (fs w) (trace w ++ [Mkdir DIST]))
      end
  end.
Proof.
  unfold ensure_dist_dir. rewrite mkdir_eq, parent_DIST. reflexivity.
Qed.

(** Without [parents=True] a missing parent is not created: the call
    raises and the filesystem stays as it was. *)
Lemma ensure_dist_dir_missing_parent (w : world) :
  fs w !! DIST = None -> fs w !! DOCS = None ->
  ensure_dist_dir BUILD_DIR w =
  (Raise FileNotFoundError, World (fs w) (trace w ++ [Mkdir DIST])).
Proof. intros H1 H2. rewrite ensure_dist_dir_eq, H1, H2. reflexivity. Qed.

(** C7 (amended).  Where the output directory is already there, or is
    absent with its parent directory in place, [ensure_dist_dir] succeeds,
    the directory is there afterwards and nothing else has changed; an
    existing directory is left as it is, and a second call succeeds and
    changes nothing. *)
Theorem ensure_dist_dir_creates (w : world) :
  fs w !! DIST = Some Dir \/ (fs w !! DIST = None /\ fs w !! DOCS = Some Dir) ->
  exists w1,
    ensure_dist_dir BUILD_DIR w = (Ok tt, w1) /\
    fs w1 !! DIST = Some Dir /\
    (forall q, q <> DIST -> fs w1 !! q = fs w !! q) /\
    (fs w !! DIST = Some Dir -> fs w1 = fs w) /\
    ensure_dist_dir BUILD_DIR w1 = (Ok tt, World (fs w1) (trace w1 ++ [Mkdir DIST])).
Proof.
  intros [H | [H1 H2]].
  - exists (World (fs w) (trace w ++ [Mkdir DIST])).
    rewrite !ensure_dist_dir_eq. cbn [fs trace]. rewrite H.
    repeat split; auto.
  - exists (World (<[DIST := Dir]> (fs w)) (trace w ++ [Mkdir DIST])).
    rewrite !ensure_dist_dir_eq. cbn [fs trace]. rewrite H1, H2.
    rewrite lookup_insert_eq.
    repeat split; auto.
    + intros q Hq. apply lookup_insert_ne. congruence.
    + congruence.
Qed.

(** *** Format builders *)

Lemma convert_eq cmd cwd msg (handler : exn -> option (M bool)) (w : world) :
  try_except
    (_ ← subprocess_run spawn cmd cwd true; _ ← print msg; mret true)
    handler w =
  let w1 := World (spawn cmd cwd (fs w)).2 (trace w ++ [Spawn cmd cwd]) in
  match run_result (spawn cmd cwd (fs w)).1 true with
  | Ok _ => (Ok true, World (fs w1) (trace w1 ++ [Print msg]))
  | Raise e =>
      match handler e with
      | Some h => h w1
      | None => (Raise e, w1)
      end
  end.
Proof.
  unfold try_except. rewrite bind_unfold, subprocess_run_eq.
  destruct (run_result _ true) as [r|e]; [|reflexivity].
  monad_step. reflexivity.
Qed.

Lemma build_pdf_eq (chapters : list path) (w : world) :
  build_pdf BUILD_DIR spawn chapters w =
  let cmd := pdf_cmd BUILD_DIR chapters in
  let m := (spawn cmd (Some DOCS) (fs w)).2 in
  let t := trace w ++ [Print (MsgBuilding PDF); Spawn cmd (Some DOCS)] in
  match run_result (spawn cmd (Some DOCS) (fs w)).1 true with
  | Ok _ =>
      (Ok true,
       World m (t ++ [Print (MsgGenerated PDF (DIST // "vizpsyche-book.pdf"))]))
  | Raise (CalledProcessError rc) =>
      (Ok false, World m (t ++ [Print (MsgBuildFailed PDF (CalledProcessError rc))]))
  | Raise FileNotFoundError =>
      (Ok false, World m (t ++ [Print MsgXelatexNotFound]))
  | Raise e => (Raise e, World m t)
  end.
Proof.
  unfold build_pdf. rewrite bind_unfold, print_eq, convert_eq.
  cbn [fs trace]. cbv zeta.
  destruct (run_result _ true) as [r|e].
  - rewrite <- !app_assoc. reflexivity.
  - destruct e; monad_step; rewrite <- !app_assoc; reflexivity.
Qed.

Lemma build_epub_eq (chapters : list path) (w : world) :
  build_epub BUILD_DIR spawn chapters w =
  let cmd := epub_cmd BUILD_DIR chapters in
  let m := (spawn cmd (Some DOCS) (fs w)).2 in
  let t := trace w ++ [Print (MsgBuilding EPUB); Spawn cmd (Some DOCS)] in
  match run_result (spawn cmd (Some DOCS) (fs w)).1 true with
  | Ok _ =>
      (Ok true,
       World m (t ++ [Print (MsgGenerated EPUB (DIST // "vizpsyche-book.epub"))]))
  | Raise (CalledProcessError rc) =>
      (Ok false, World m (t ++ [Print (MsgBuildFailed EPUB (CalledProcessError rc))]))
  | Raise e => (Raise e, World m t)
  end.
Proof.
  unfold build_epub. rewrite bind_unfold, print_eq, convert_eq.
  cbn [fs trace]. cbv zeta.
  destruct (run_result _ true) as [r|e].
  - rewrite <- !app_assoc. reflexivity.
  - destruct e; monad_step; rewrite <- !app_assoc; reflexivity.
Qed.

Lemma build_html_eq (chapters : list path) (w : world) :
  build_html BUILD_DIR spawn chapters w =
  match build_html_prepare BUILD_DIR w with
  | (Ok _, w1) =>
      let cmd := html_cmd BUILD_DIR chapters in
      let m := (spawn cmd (Some DOCS) (fs w1)).2 in
      let t := trace w1 ++ [Spawn cmd (Some DOCS)] in
      match run_result (spawn cmd (Some DOCS) (fs w1)).1 true with
      | Ok _ =>
          (Ok true,
           World m (t ++ [Print (MsgGenerated HTML (DIST // "html" // "index.html"))]))
      | Raise (CalledProcessError rc) =>
          (Ok false,
           World m (t ++ [Print (MsgBuildFailed HTML (CalledProcessError rc))]))
      | Raise e => (Raise e, World m t)
      end
  | (Raise e, w1) => (Raise e, w1)
  end.
Proof.
  unfold build_html. rewrite bind_unfold.
  destruct (build_html_prepare BUILD_DIR w) as [[[]|e] w1]; [|reflexivity].
  rewrite convert_eq. cbn [fs trace]. cbv zeta.
  destruct (run_result _ true) as [r|e].
  - reflexivity.
  - destruct e; monad_step; reflexivity.
Qed.

(** C8 (amended).  When starting the converter raises FileNotFoundError,
    the PDF builder prints its dedicated diagnostic and returns false.
    The EPUB and HTML builders have no handler for that condition: the
    exception leaves the builder (for HTML, once the preparation of the
    output directory has gone through). *)
Theorem file_not_found_handling (chapters : list path) (w : world) :
  let prepared := build_html_prepare BUILD_DIR w in
  (spawn (pdf_cmd BUILD_DIR chapters) (Some DOCS) (fs w)).1
    = SpawnError FileNotFoundError ->
  (spawn (epub_cmd BUILD_DIR chapters) (Some DOCS) (fs w)).1
    = SpawnError FileNotFoundError ->
  (spawn (html_cmd BUILD_DIR chapters) (Some DOCS) (fs prepared.2)).1
    = SpawnError FileNotFoundError ->
  build_pdf BUILD_DIR spawn chapters w =
    (Ok false,
     World (spawn (pdf_cmd BUILD_DIR chapters) (Some DOCS) (fs w)).2
           (trace w ++ [Print (MsgBuilding PDF);
                        Spawn (pdf_cmd BUILD_DIR chapters) (Some DOCS);
                        Print MsgXelatexNotFound])) /\
  build_epub BUILD_DIR spawn chapters w =
    (Raise FileNotFoundError,
     World (spawn (epub_cmd BUILD_DIR chapters) (Some DOCS) (fs w)).2
           (trace w ++ [Print (MsgBuilding EPUB);
                        Spawn (epub_cmd BUILD_DIR chapters) (Some DOCS)])) /\
  (build_html BUILD_DIR spawn chapters w).1 =
    match prepared.1 with
    | Ok _ => Raise FileNotFoundError
    | Raise e => Raise e
    end.
Proof.
  intros prepared Hpdf Hepub Hhtml. repeat split.
  - rewrite build_pdf_eq. cbv zeta. rewrite Hpdf. cbn [run_result].
    rewrite <- !app_assoc. reflexivity.
  - rewrite build_epub_eq. cbv zeta. rewrite Hepub. reflexivity.
  - rewrite build_html_eq. subst prepared.
    destruct (build_html_prepare BUILD_DIR w) as [[[]|e] w1]; [|reflexivity].
    cbn [snd] in Hhtml. cbv zeta. rewrite Hhtml. reflexivity.
Qed.

(** *** Traces only grow *)

Lemma copytree_eq src dst (w : world) :
  copytree src dst w =
  let t := trace w ++ [Copytree src dst] in
  match fs w !! src with
  | Some Dir =>
      match Fs.makedirs_from [] dst (fs w) with
      | Ok m' => (Ok tt, World (Fs.copy_entries src dst (fs w) m') t)
      | Raise e => (Raise e, World (fs w) t)
      end
  | Some (File _) => (Raise NotADirectoryError, World (fs w) t)
  | None => (Raise FileNotFoundError, World (fs w) t)
  end.
Proof.
  unfold copytree. rewrite bind_unfold, emit_eq. unfold on_fs. cbn [fs trace].
  destruct (fs w !! src) as [[|c]|]; try reflexivity.
  destruct (Fs.makedirs_from [] dst (fs w)); reflexivity.
Qed.

Lemma copy_images_eq src dst (w : world) :
  copy_images src dst w =
  match fs w !! src with
  | None => (Ok tt, World (fs w) (trace w))
  | Some _ =>
      match fs w !! dst with
      | None => copytree src dst (World (fs w) (trace w))
      | Some Dir =>
          copytree src dst (World (Fs.remove_tree dst (fs w)) (trace w ++ [Rmtree dst]))
      | Some (File _) =>
          (Raise NotADirectoryError, World (fs w) (trace w ++ [Rmtree dst]))
      end
  end.
Proof.
  unfold copy_images. rewrite bind_unfold, path_exists_eq.
  destruct (fs w !! src) as [n|] eqn:Hsrc.
  - rewrite bool_decide_eq_true_2 by eauto.
    rewrite bind_unfold, path_exists_eq.
    destruct (fs w !! dst) as [[|c]|] eqn:Hdst.
    + rewrite bool_decide_eq_true_2 by eauto.
      rewrite bind_unfold, rmtree_eq, Hdst. reflexivity.
    + rewrite bool_decide_eq_true_2 by eauto.
      rewrite bind_unfold, rmtree_eq, Hdst. reflexivity.
    + rewrite bool_decide_eq_false_2 by (intros [? ?]; discriminate).
      rewrite bind_unfold. cbn [mret M_ret]. destruct w; reflexivity.
  - rewrite bool_decide_eq_false_2 by (intros [? ?]; discriminate).
    destruct w; reflexivity.
Qed.

Lemma copytree_extends src dst (w : world) :
  exists t, extends w (copytree src dst w).2 t.
Proof.
  unfold extends. rewrite copytree_eq. cbv zeta.
  destruct (fs w !! src) as [[|c]|]; [|eauto..].
  destruct (Fs.makedirs_from [] dst (fs w)); eauto.
Qed.

Lemma copy_images_extends src dst (w : world) :
  exists t, extends w (copy_images src dst w).2 t.
Proof.
  unfold extends. rewrite copy_images_eq.
  destruct (fs w !! src) as [n|].
  - destruct (fs w !! dst) as [[|c]|].
    + destruct (copytree_extends src dst
                  (World (Fs.remove_tree dst (fs w)) (trace w ++ [Rmtree dst])))
        as [t Ht].
      unfold extends in Ht. cbn [trace] in Ht. rewrite Ht, <- app_assoc. eauto.
    + cbn [snd trace]. eauto.
    + apply (copytree_extends src dst (World (fs w) (trace w))).
  - exists []. cbn [snd trace]. rewrite app_nil_r. reflexivity.
Qed.

Lemma build_html_prepare_extends (w : world) :
  exists t, extends w (build_html_prepare BUILD_DIR w).2 t.
Proof.
  unfold extends, build_html_prepare.
  rewrite bind_unfold, print_eq, bind_unfold, mkdir_eq. cbn [fs trace].
  set (w0 := trace w ++ [Print (MsgBuilding HTML)]).
  assert (Hcopy : forall m,
    exists t, trace (copy_images (DOCS // "images") (DIST // "html" // "images")
                       (World m (w0 ++ [Mkdir (DIST // "html")]))).2 = trace w ++ t).
  { intros m.
    destruct (copy_images_extends (DOCS // "images") (DIST // "html" // "images")
                (World m (w0 ++ [Mkdir (DIST // "html")]))) as [t Ht].
    unfold extends in Ht. cbn [trace] in Ht. rewrite Ht. subst w0.
    rewrite <- !app_assoc. eauto. }
  destruct (fs w !! (DIST // "html")) as [[|c]|].
  - apply Hcopy.
  - subst w0. cbn [snd trace]. rewrite <- app_assoc. eauto.
  - destruct (fs w !! parent (DIST // "html")) as [[|c]|].
    + apply Hcopy.
    + subst w0. cbn [snd trace]. rewrite <- app_assoc. eauto.
    + subst w0. cbn [snd trace]. rewrite <- app_assoc. eauto.
Qed.

Lemma build_pdf_spawns chapters (w : world) :
  exists t, extends w (build_pdf BUILD_DIR spawn chapters w).2 t /\
            Spawn (pdf_cmd BUILD_DIR chapters) (Some DOCS) ∈ t.
Proof.
  unfold extends. rewrite build_pdf_eq. cbv zeta.
  destruct (run_result _ true) as [r|e]; [|destruct e];
    cbn [snd trace]; rewrite <- ?app_assoc;
    (eexists; split; [reflexivity|]); set_solver.
Qed.

Lemma build_epub_spawns chapters (w : world) :
  exists t, extends w (build_epub BUILD_DIR spawn chapters w).2 t /\
            Spawn (epub_cmd BUILD_DIR chapters) (Some DOCS) ∈ t.
Proof.
  unfold extends. rewrite build_epub_eq. cbv zeta.
  destruct (run_result _ true) as [r|e]; [|destruct e];
    cbn [snd trace]; rewrite <- ?app_assoc;
    (eexists; split; [reflexivity|]); set_solver.
Qed.

Lemma build_html_spawns chapters (w : world) b w' :
  build_html BUILD_DIR spawn chapters w = (Ok b, w') ->
  exists t, extends w w' t /\
            Spawn (html_cmd BUILD_DIR chapters) (Some DOCS) ∈ t.
Proof.
  unfold extends. rewrite build_html_eq.
  destruct (build_html_prepare_extends w) as [t0 Ht0]. unfold extends in Ht0.
  destruct (build_html_prepare BUILD_DIR w) as [[[]|e] w1]; [|discriminate].
  cbn [snd] in Ht0. cbv zeta.
  destruct (run_result _ true) as [r|e]; [|destruct e];
    intros H; inversion H; subst; cbn [trace]; rewrite Ht0, <- ?app_assoc;
    (eexists; split; [reflexivity|]); set_solver.
Qed.

(** *** Dispatcher *)

Lemma main_build_all_eq chapters (w w1 w2 w3 : world) b1 b2 b3 :
  build_pdf BUILD_DIR spawn chapters w = (Ok b1, w1) ->
  build_html BUILD_DIR spawn chapters w1 = (Ok b2, w2) ->
  build_epub BUILD_DIR spawn chapters w2 = (Ok b3, w3) ->
  main_build BUILD_DIR spawn CmdAll chapters w =
  (if b1 && b2 && b3 then Ok tt else Raise (SystemExit 1),
   World (fs w3) (trace w3 ++ verdict DIST (b1 && b2 && b3))).
Proof.
  intros H1 H2 H3. unfold main_build. cbn [command_in existsb command_eqb orb].
  rewrite bind_unfold, bind_unfold, H1. cbn [mret M_ret].
  rewrite bind_unfold, bind_unfold, H2. cbn [mret M_ret].
  rewrite bind_unfold, bind_unfold, H3. cbn [mret M_ret].
  rewrite bind_unfold, print_eq.
  destruct b1, b2, b3; cbn [andb verdict fs trace];
    rewrite bind_unfold, print_eq; cbn [fs trace];
    rewrite ?print_eq; unfold sys_exit, raise; cbn [fs trace];
    rewrite <- !app_assoc; reflexivity.
Qed.

(** C1.  For the command [all], once the preparation has gone through,
    the three builders run one after the other, each on the world its
    predecessor left, whatever boolean the earlier ones returned; each
    spawns its converter command.  The run ends normally (exit status 0)
    when the three returned true and with sys.exit(1) otherwise: the
    verdict is the conjunction of the three results. *)
Theorem all_runs_every_builder (w w0 w1 w2 w3 : world) chapters b1 b2 b3 :
  main_prepare BUILD_DIR safe_load spawn (World (fs w) (trace w ++ banner))
    = (Ok chapters, w0) ->
  build_pdf BUILD_DIR spawn chapters w0 = (Ok b1, w1) ->
  build_html BUILD_DIR spawn chapters w1 = (Ok b2, w2) ->
  build_epub BUILD_DIR spawn chapters w2 = (Ok b3, w3) ->
  let success := b1 && b2 && b3 in
  let r := main BUILD_DIR safe_load spawn CmdAll w in
  r = (if success then Ok tt else Raise (SystemExit 1),
       World (fs w3) (trace w3 ++ verdict DIST success)) /\
  exit_status r.1 = (if success then 0 else 1)%Z /\
  exists t1 t2 t3,
    trace w3 = trace w0 ++ t1 ++ t2 ++ t3 /\
    Spawn (pdf_cmd BUILD_DIR chapters) (Some DOCS) ∈ t1 /\
    Spawn (html_cmd BUILD_DIR chapters) (Some DOCS) ∈ t2 /\
    Spawn (epub_cmd BUILD_DIR chapters) (Some DOCS) ∈ t3.
Proof.
  intros H0 H1 H2 H3 success r.
  assert (Hr : r = (if success then Ok tt else Raise (SystemExit 1),
                    World (fs w3) (trace w3 ++ verdict DIST success))).
  { subst r. rewrite main_banner. cbn [command_eqb].
    rewrite bind_unfold, H0. eapply main_build_all_eq; eassumption. }
  split; [exact Hr|]. split.
  - rewrite Hr. destruct success; reflexivity.
  - destruct (build_pdf_spawns chapters w0) as (t1 & E1 & S1).
    destruct (build_html_spawns chapters w1 b2 w2 H2) as (t2 & E2 & S2).
    destruct (build_epub_spawns chapters w2) as (t3 & E3 & S3).
    rewrite H1 in E1. rewrite H3 in E3. unfold extends in *. cbn [snd] in *.
    exists t1, t2, t3. rewrite E3, E2, E1, <- !app_assoc. auto.
Qed.

Lemma get_chapter_paths_loop_quiet (items : list pyval) :
  forall paths (w : world),
    let r := get_chapter_paths_loop BUILD_DIR items paths w in
    fs r.2 = fs w /\ exists t, extends w r.2 t /\ Forall is_warning t.
Proof.
  unfold extends.
  induction items as [|item items IH]; intros paths w; cbv zeta.
  - cbn. split; [reflexivity|]. exists []. rewrite app_nil_r. auto.
  - destruct item; cbn [get_chapter_paths_loop];
      try (cbn; split; [reflexivity|]; exists []; rewrite app_nil_r; auto).
    rewrite bind_unfold, path_exists_any_eq.
    destruct (Fs.stat (fs w) (DOCS // s)) as [node|e];
      [|cbn; split; [reflexivity|]; exists []; rewrite app_nil_r; auto].
    destruct (bool_decide _).
    + specialize (IH (paths ++ [DOCS // s]) w). cbv zeta in IH.
      destruct IH as [IHfs IHt]. destruct w; auto.
    + rewrite bind_unfold, print_eq.
      specialize (IH paths (World (fs w) (trace w ++ [Print (MsgChapterNotFound s)]))).
      cbv zeta in IH. cbn [fs trace] in IH. destruct IH as [IHfs (t & Ht & Hw)].
      split; [exact IHfs|].
      exists (Print (MsgChapterNotFound s) :: t). split.
      * rewrite Ht, <- app_assoc. reflexivity.
      * constructor; [exact I|exact Hw].
Qed.

Lemma get_chapter_paths_quiet (chapters : pyval) (w : world) :
  let r := get_chapter_paths BUILD_DIR chapters w in
  fs r.2 = fs w /\ exists t, extends w r.2 t /\ Forall is_warning t.
Proof.
  unfold get_chapter_paths. rewrite bind_unfold. unfold lift.
  destruct (Py.iter chapters) as [items|e].
  - apply get_chapter_paths_loop_quiet.
  - cbn. split; [reflexivity|]. exists []. unfold extends.
    rewrite app_nil_r. auto.
Qed.

(** C4.  For any build command, when the resolver returns the empty list
    the run prints the error and ends with exit status 1.  Since the
    version query, the run has only opened the manifest and printed: no
    directory was created and no converter command was spawned, and the
    filesystem is as the version query left it. *)
Theorem no_chapters_aborts (c : command) (w w1 w2 w3 : world) chapters_list n :
  c <> CmdClean ->
  check_pandoc spawn (World (fs w) (trace w ++ banner)) = (Ok true, w1) ->
  load_chapters BUILD_DIR safe_load w1 = (Ok chapters_list, w2) ->
  Py.len chapters_list = Ok n ->
  get_chapter_paths BUILD_DIR chapters_list
    (World (fs w2) (trace w2 ++ [Print (MsgFoundChapters n)])) = (Ok [], w3) ->
  let r := main BUILD_DIR safe_load spawn c w in
  r = (Raise (SystemExit 1), World (fs w3) (trace w3 ++ [Print MsgNoChapters])) /\
  exit_status r.1 = 1%Z /\
  fs r.2 = (spawn version_cmd None (fs w)).2 /\
  exists version warnings,
    trace r.2 =
      trace w ++ banner ++
      [Spawn version_cmd None; Print (MsgFoundPandoc version);
       Open MANIFEST; Print (MsgFoundChapters n)] ++
      warnings ++ [Print MsgNoChapters] /\
    Forall is_warning warnings.
Proof.
  intros Hc Hcheck Hload Hlen Hpaths r.
  assert (Hr : r = (Raise (SystemExit 1),
                    World (fs w3) (trace w3 ++ [Print MsgNoChapters]))).
  { subst r. rewrite main_banner.
    destruct c; try contradiction; cbn [command_eqb];
      unfold main_prepare;
      rewrite ?bind_unfold, Hcheck; cbn [negb]; cbv beta iota;
      rewrite ?bind_unfold, Hload; cbv beta iota;
      rewrite ?bind_unfold; unfold lift; rewrite Hlen; cbv beta iota;
      rewrite ?bind_unfold, print_eq; cbv beta iota;
      rewrite ?bind_unfold, Hpaths; cbv beta iota;
      rewrite ?bind_unfold, print_eq; reflexivity. }
  split; [exact Hr|]. split; [rewrite Hr; reflexivity|].
  rewrite Hr. cbn [snd fs trace].
  rewrite check_pandoc_eq in Hcheck. cbv zeta in Hcheck. cbn [fs trace] in Hcheck.
  rewrite load_chapters_eq in Hload.
  pose proof (get_chapter_paths_quiet chapters_list
                (World (fs w2) (trace w2 ++ [Print (MsgFoundChapters n)]))) as Hq.
  cbv zeta in Hq. rewrite Hpaths in Hq. cbn [snd fs trace] in Hq.
  destruct Hq as [Hfs (warnings & Ht & Hwarn)]. unfold extends in Ht.
  cbn [trace] in Ht.
  injection Hload as _ <-. cbn [fs trace] in *.
  destruct (run_result _ true) as [res|e].
  - injection Hcheck as <-. cbn [fs trace] in *.
    split; [exact Hfs|].
    exists (first_line res.2), warnings. split; [|exact Hwarn].
    rewrite Ht, <- !app_assoc. reflexivity.
  - destruct e; discriminate.
Qed.

(** *** Copying a tree *)

Lemma strip_prefix_shorter (p q : path) :
  length q < length p -> Fs.strip_prefix p q = None.
Proof.
  revert q. induction p as [|a p IH]; intros q Hlen; [cbn in Hlen; lia|].
  destruct q as [|b q]; [reflexivity|]. cbn in *.
  destruct (String.eqb a b); [apply IH; lia|reflexivity].
Qed.

Lemma outside_neq (p q : path) : Fs.outside p q -> q <> p.
Proof.
  unfold Fs.outside. intros H ->.
  pose proof (strip_prefix_app p []) as E. rewrite app_nil_r in E. congruence.
Qed.

Lemma copy_entries_lookup (src dst : path) (from m : gmap path node) (q : path) :
  Fs.copy_entries src dst from m !! q =
  match Fs.strip_prefix dst q with
  | Some (c :: s) =>
      match from !! (src ++ c :: s) with
      | Some n => Some n
      | None => m !! q
      end
  | _ => m !! q
  end.
Proof.
  unfold Fs.copy_entries. revert q.
  apply (map_fold_weak_ind (fun r (from : gmap path node) => forall q,
    r !! q =
    match Fs.strip_prefix dst q with
    | Some (c :: s) =>
        match from !! (src ++ c :: s) with
        | Some n => Some n
        | None => m !! q
        end
    | _ => m !! q
    end)); clear from.
  - intros q. destruct (Fs.strip_prefix dst q) as [[|c s]|];
      rewrite ?lookup_empty; reflexivity.
  - intros i x from r Hi IH q.
    destruct (Fs.strip_prefix src i) as [[|ci si]|] eqn:Hsi.
    + (* [i] is [src] itself: nothing is written *)
      apply strip_prefix_Some in Hsi. rewrite app_nil_r in Hsi. subst i.
      rewrite IH. destruct (Fs.strip_prefix dst q) as [[|c s]|]; try reflexivity.
      rewrite lookup_insert_ne; [reflexivity|].
      intros E. apply (f_equal length) in E. rewrite length_app in E.
      cbn in E. lia.
    + (* [i] is below [src]: it is written below [dst] *)
      apply strip_prefix_Some in Hsi. subst i.
      destruct (decide (q = dst ++ ci :: si)) as [->|Hne].
      * rewrite lookup_insert_eq, strip_prefix_app, lookup_insert_eq. reflexivity.
      * rewrite lookup_insert_ne by congruence. rewrite IH.
        destruct (Fs.strip_prefix dst q) as [[|c s]|] eqn:Hq; try reflexivity.
        rewrite lookup_insert_ne; [reflexivity|].
        intros E. apply app_inv_head in E.
        apply strip_prefix_Some in Hq. congruence.
    + (* [i] is elsewhere *)
      rewrite IH. destruct (Fs.strip_prefix dst q) as [[|c s]|]; try reflexivity.
      rewrite lookup_insert_ne; [reflexivity|].
      intros E. subst i. rewrite strip_prefix_app in Hsi. discriminate.
Qed.

Lemma makedirs_from_last (todo : path) :
  forall (done : path) (c : string) (m : gmap path node),
    (forall k, 0 < k <= length todo -> m !! (done ++ take k todo) = Some Dir) ->
    m !! (done ++ todo ++ [c]) = None ->
    Fs.makedirs_from done (todo ++ [c]) m = Ok (<[done ++ todo ++ [c] := Dir]> m).
Proof.
  induction todo as [|a todo IH]; intros done c m Hdirs Hnew.
  - cbn in *. rewrite Hnew. reflexivity.
  - cbn [app Fs.makedirs_from].
    pose proof (Hdirs 1 ltac:(cbn; lia)) as H1.
    change (take 1 (a :: todo)) with [a] in H1. rewrite H1.
    assert (Hrest : exists b rest, todo ++ [c] = b :: rest).
    { destruct todo; cbn; eauto. }
    destruct Hrest as (b & rest & Hrest). rewrite Hrest, <- Hrest.
    rewrite IH.
    + rewrite <- app_assoc. reflexivity.
    + intros k Hk. rewrite <- app_assoc. apply (Hdirs (S k)). cbn. lia.
    + rewrite <- app_assoc. exact Hnew.
Qed.

Lemma wf_absent_below (m : gmap path node) (p s : path) :
  wf_fs m -> m !! p = None -> m !! (p ++ s) = None.
Proof.
  intros Hwf Hp. induction s as [|c s IH] using rev_ind.
  - rewrite app_nil_r. exact Hp.
  - destruct (m !! (p ++ s ++ [c])) as [n|] eqn:Hn; [|reflexivity].
    assert (Hne : p ++ s ++ [c] <> []) by (destruct p, s; discriminate).
    pose proof (Hwf _ _ Hn Hne) as Hpar.
    rewrite app_assoc, parent_joined in Hpar. congruence.
Qed.

Lemma wf_above_dir (m : gmap path node) (p s : path) :
  wf_fs m -> m !! (p ++ s) = Some Dir -> m !! p = Some Dir.
Proof.
  intros Hwf. induction s as [|c s IH] using rev_ind.
  - rewrite app_nil_r. auto.
  - intros H. apply IH.
    assert (Hne : p ++ s ++ [c] <> []) by (destruct p, s; discriminate).
    pose proof (Hwf _ _ H Hne) as Hpar.
    rewrite app_assoc, parent_joined in Hpar. exact Hpar.
Qed.

Lemma wf_prefix_dir (m : gmap path node) (p : path) (k : nat) :
  wf_fs m -> m !! p = Some Dir -> m !! take k p = Some Dir.
Proof.
  intros Hwf Hp. apply (wf_above_dir m (take k p) (drop k p) Hwf).
  rewrite take_drop. exact Hp.
Qed.

Lemma wf_insert_dir (m : gmap path node) (p : path) :
  wf_fs m -> m !! parent p = Some Dir -> wf_fs (<[p := Dir]> m).
Proof.
  intros Hwf Hparent q n Hq Hne.
  destruct (decide (parent q = p)) as [E|E].
  - rewrite E. apply lookup_insert_eq.
  - rewrite lookup_insert_ne by congruence.
    destruct (decide (q = p)) as [->|Hqp]; [exact Hparent|].
    rewrite lookup_insert_ne in Hq by congruence. eapply Hwf; eauto.
Qed.

(** Copying into a place where nothing exists yet, next to an existing
    directory: the copy is exact and disturbs nothing else. *)
Lemma copytree_fresh (src dst_parent : path) (c : string) (w : world) :
  let dst := dst_parent ++ [c] in
  wf_fs (fs w) ->
  fs w !! src = Some Dir ->
  fs w !! dst_parent = Some Dir ->
  (forall s, fs w !! (dst ++ s) = None) ->
  exists m,
    copytree src dst w = (Ok tt, World m (trace w ++ [Copytree src dst])) /\
    (forall s, m !! (dst ++ s) = fs w !! (src ++ s)) /\
    (forall q, Fs.outside dst q -> m !! q = fs w !! q).
Proof.
  intros dst Hwf Hsrc Hparent Hfresh.
  rewrite copytree_eq. cbv zeta. rewrite Hsrc.
  subst dst. rewrite makedirs_from_last.
  - cbn [app]. eexists. split; [reflexivity|]. split.
    + intros s. rewrite copy_entries_lookup, strip_prefix_app.
      destruct s as [|c' s].
      * rewrite !app_nil_r, lookup_insert_eq. congruence.
      * destruct (fs w !! (src ++ c' :: s)) as [n|]; [reflexivity|].
        rewrite lookup_insert_ne.
        -- apply Hfresh.
        -- intros E. apply (f_equal length) in E. rewrite !length_app in E.
           cbn in E. lia.
    + intros q Hq. rewrite copy_entries_lookup, Hq.
      apply lookup_insert_ne. intros E. apply (outside_neq _ _ Hq). congruence.
  - intros k _. cbn [app]. apply wf_prefix_dir; assumption.
  - cbn [app]. specialize (Hfresh []). rewrite app_nil_r in Hfresh. exact Hfresh.
Qed.

Lemma wf_remove_tree (m : gmap path node) (p : path) :
  wf_fs m -> p <> [] -> wf_fs (Fs.remove_tree p m).
Proof.
  intros Hwf Hp q n Hq Hne. rewrite remove_tree_lookup in Hq.
  destruct (Fs.strip_prefix p q) as [s|] eqn:Hs; [discriminate|].
  rewrite remove_tree_lookup.
  destruct (Fs.strip_prefix p (parent q)) as [s|] eqn:Hs'; [|eauto].
  exfalso. apply strip_prefix_Some in Hs'.
  destruct q as [|a q] using rev_ind; [congruence|].
  rewrite parent_joined in Hs'. subst q.
  rewrite <- app_assoc, strip_prefix_app in Hs. discriminate.
Qed.

(** The image copy of the HTML builder, when the source directory is
    there and the destination's parent is a directory. *)
Lemma copy_images_replaces (src dst_parent : path) (c : string) (w : world) :
  let dst := dst_parent ++ [c] in
  wf_fs (fs w) ->
  fs w !! src = Some Dir ->
  fs w !! dst_parent = Some Dir ->
  (forall content, fs w !! dst <> Some (File content)) ->
  (forall s, Fs.outside dst (src ++ s)) ->
  exists m,
    copy_images src dst w =
      (Ok tt,
       World m (trace w ++
                (if bool_decide (is_Some (fs w !! dst)) then [Rmtree dst] else []) ++
                [Copytree src dst])) /\
    (forall s, m !! (dst ++ s) = fs w !! (src ++ s)) /\
    (forall q, Fs.outside dst q -> m !! q = fs w !! q).
Proof.
  intros dst Hwf Hsrc Hparent Hfile Hout.
  assert (Hdstp : Fs.outside dst dst_parent).
  { apply strip_prefix_shorter. subst dst. rewrite length_app. cbn. lia. }
  rewrite copy_images_eq, Hsrc.
  destruct (fs w !! dst) as [[|content]|] eqn:Hdst.
  - rewrite bool_decide_eq_true_2 by eauto.
    destruct (copytree_fresh src dst_parent c
                (World (Fs.remove_tree dst (fs w)) (trace w ++ [Rmtree dst])))
      as (m & Hrun & Hcopy & Hrest); cbn [fs trace].
    + apply wf_remove_tree; [exact Hwf|]. subst dst. destruct dst_parent; discriminate.
    + specialize (Hout []). rewrite app_nil_r in Hout.
      rewrite remove_tree_outside; assumption.
    + rewrite remove_tree_outside; assumption.
    + intros s. apply remove_tree_below.
    + exists m. cbn [fs trace] in *. fold dst in Hrun. rewrite Hrun.
      rewrite <- !app_assoc. split; [reflexivity|]. split.
      * intros s. rewrite Hcopy. apply remove_tree_outside, Hout.
      * intros q Hq. rewrite Hrest by exact Hq. apply remove_tree_outside, Hq.
  - exfalso. eapply Hfile; reflexivity.
  - rewrite bool_decide_eq_false_2 by (intros [? ?]; discriminate).
    destruct (copytree_fresh src dst_parent c (World (fs w) (trace w)))
      as (m & Hrun & Hcopy & Hrest); cbn [fs trace]; try assumption.
    + intros s. apply wf_absent_below; assumption.
    + exists m. cbn [fs trace] in *. fold dst in Hrun. rewrite Hrun. auto.
Qed.

(** *** The HTML builder and its images *)

Local Abbreviation HTML_DIR := (DIST // "html").
Local Abbreviation IMAGES_SRC := (DOCS // "images").
Local Abbreviation IMAGES_DST := (DIST // "html" // "images").

Lemma images_src_outside_dst (s : path) : Fs.outside IMAGES_DST (IMAGES_SRC ++ s).
Proof.
  unfold Fs.outside.
  change IMAGES_DST with (((DOCS ++ ["dist"]) ++ ["html"]) ++ ["images"]).
  change IMAGES_SRC with (DOCS ++ ["images"]).
  rewrite <- !app_assoc. apply strip_prefix_common.
Qed.

Lemma html_dir_outside_dst : Fs.outside IMAGES_DST HTML_DIR.
Proof.
  apply strip_prefix_shorter.
  change IMAGES_DST with (HTML_DIR ++ ["images"]). rewrite length_app. cbn. lia.
Qed.

Lemma html_dir_not_src (s : path) : IMAGES_SRC ++ s <> HTML_DIR.
Proof.
  change IMAGES_SRC with (DOCS ++ ["images"]).
  change HTML_DIR with ((DOCS ++ ["dist"]) ++ ["html"]).
  rewrite <- !app_assoc. intros E. apply app_inv_head in E. discriminate.
Qed.

Lemma images_src_neq : IMAGES_SRC <> HTML_DIR.
Proof.
  pose proof (html_dir_not_src []) as H. rewrite app_nil_r in H. exact H.
Qed.

(** The filesystem once the HTML output directory has been made. *)
Lemma build_html_prepare_mkdir (w : world) :
  wf_fs (fs w) ->
  fs w !! DIST = Some Dir ->
  (forall content, fs w !! HTML_DIR <> Some (File content)) ->
  exists m1,
    build_html_prepare BUILD_DIR w =
      copy_images IMAGES_SRC IMAGES_DST
        (World m1 (trace w ++ [Print (MsgBuilding HTML); Mkdir HTML_DIR])) /\
    wf_fs m1 /\ m1 !! HTML_DIR = Some Dir /\
    (forall q, q <> HTML_DIR -> m1 !! q = fs w !! q).
Proof.
  intros Hwf Hdist Hfile.
  unfold build_html_prepare.
  rewrite bind_unfold, print_eq, bind_unfold, mkdir_eq. cbn [fs trace].
  change (parent HTML_DIR) with (parent (DIST ++ ["html"])).
  rewrite parent_joined, Hdist.
  destruct (fs w !! HTML_DIR) as [[|content]|] eqn:Hhtml.
  - exists (fs w). rewrite <- app_assoc. auto.
  - exfalso. eapply Hfile; reflexivity.
  - exists (<[HTML_DIR := Dir]> (fs w)). rewrite <- app_assoc.
    split; [reflexivity|]. split; [|split].
    + apply wf_insert_dir; [exact Hwf|].
      change (parent HTML_DIR) with (parent (DIST ++ ["html"])).
      rewrite parent_joined. exact Hdist.
    + apply lookup_insert_eq.
    + intros q Hq. apply lookup_insert_ne. congruence.
Qed.

(** C9.  In a well-formed filesystem where the output directory is in
    place, the HTML builder looks for "images" under the document root
    before it runs the converter.  If that directory is there, whatever
    was at "images" in the HTML output directory is removed and the
    source tree is copied in its place: afterwards the destination holds
    exactly what the source holds, path for path, and nothing else has
    changed.  If nothing is there, nothing is removed or copied.  The
    converter is spawned afterwards, on the filesystem so prepared. *)
Theorem html_images_replaced (chapters : list path) (w : world) :
  wf_fs (fs w) ->
  fs w !! DIST = Some Dir ->
  (forall content, fs w !! HTML_DIR <> Some (File content)) ->
  (forall content, fs w !! IMAGES_DST <> Some (File content)) ->
  let r := build_html_prepare BUILD_DIR w in
  let cmd := html_cmd BUILD_DIR chapters in
  let announced := [Print (MsgBuilding HTML); Mkdir HTML_DIR] in
  (fs w !! IMAGES_SRC = Some Dir ->
     r.1 = Ok tt /\
     (forall s, fs r.2 !! (IMAGES_DST ++ s) = fs w !! (IMAGES_SRC ++ s)) /\
     (forall q, Fs.outside IMAGES_DST q -> q <> HTML_DIR ->
                fs r.2 !! q = fs w !! q) /\
     trace r.2 =
       trace w ++ announced ++
       (if bool_decide (is_Some (fs w !! IMAGES_DST)) then [Rmtree IMAGES_DST] else []) ++
       [Copytree IMAGES_SRC IMAGES_DST]) /\
  (fs w !! IMAGES_SRC = None ->
     r.1 = Ok tt /\
     (forall q, q <> HTML_DIR -> fs r.2 !! q = fs w !! q) /\
     trace r.2 = trace w ++ announced) /\
  (r.1 = Ok tt ->
     exists t,
       (build_html BUILD_DIR spawn chapters w).2 =
       World (spawn cmd (Some DOCS) (fs r.2)).2
             (trace r.2 ++ Spawn cmd (Some DOCS) :: t)).
Proof.
  intros Hwf Hdist Hhtml Hdst r cmd announced.
  destruct (build_html_prepare_mkdir w Hwf Hdist Hhtml)
    as (m1 & Hprep & Hwf1 & Hhtml1 & Hsame).
  assert (Hdst_ne : IMAGES_DST <> HTML_DIR).
  { intros E. apply (f_equal length) in E.
    change IMAGES_DST with (HTML_DIR ++ ["images"]) in E.
    rewrite length_app in E. cbn in E. lia. }
  split; [|split].
  - intros Hsrc. subst r. rewrite Hprep.
    destruct (copy_images_replaces IMAGES_SRC HTML_DIR "images"
                (World m1 (trace w ++ announced)))
      as (m & Hrun & Hcopy & Hrest); cbn [fs trace].
    + exact Hwf1.
    + rewrite Hsame; [exact Hsrc|]. apply images_src_neq.
    + exact Hhtml1.
    + intros content. change (HTML_DIR ++ ["images"]) with IMAGES_DST.
      rewrite Hsame by exact Hdst_ne. apply Hdst.
    + intros s. apply images_src_outside_dst.
    + change (HTML_DIR ++ ["images"]) with IMAGES_DST in *.
      cbn [fs trace] in Hrun. subst announced. rewrite Hrun. cbn [fst snd fs trace].
      split; [reflexivity|]. split; [|split].
      * intros s. rewrite Hcopy. apply Hsame, html_dir_not_src.
      * intros q Hq Hne. rewrite Hrest by exact Hq. apply Hsame, Hne.
      * rewrite (Hsame IMAGES_DST Hdst_ne), <- !app_assoc. reflexivity.
  - intros Hsrc. subst r. rewrite Hprep, copy_images_eq. cbn [fs trace].
    rewrite Hsame by apply images_src_neq.
    rewrite Hsrc. cbn [fst snd fs trace]. auto.
  - intros Hok. rewrite build_html_eq. subst r.
    destruct (build_html_prepare BUILD_DIR w) as [[[]|e] w1]; [|discriminate].
    cbn [snd]. cbv zeta. fold cmd.
    destruct (run_result _ true) as [res|e]; [|destruct e];
      cbn [snd]; rewrite <- ?app_assoc; eexists; reflexivity.
Qed.

(** *** Outside the claims: what the same code does at the edges *)

(** A regular file in the place of the output directory is neither of the
    two cases of [clean_exits_zero]: [exists()] holds, rmtree raises, and
    the run ends with status 1. *)
Remark clean_on_regular_file (w : world) content :
  fs w !! DIST = Some (File content) ->
  let r := main BUILD_DIR safe_load spawn CmdClean w in
  r.1 = Raise NotADirectoryError /\ exit_status r.1 = 1%Z /\ fs r.2 = fs w.
Proof.
  intros H r. subst r. rewrite main_clean_eq, H. repeat split.
Qed.

(** A key that is present but holds no list (as in "appendices:" followed by
    nothing, which parses to None) does not get the default: the sum of the
    two fields raises TypeError. *)
Remark load_chapters_null_field (w : world) text chs :
  fs w !! MANIFEST = Some (File text) ->
  safe_load text =
    Ok (PyDict [(PyStr "chapters", PyList chs); (PyStr "appendices", PyNone)]) ->
  (load_chapters BUILD_DIR safe_load w).1 = Raise TypeError.
Proof.
  intros Hfile Hload. rewrite load_chapters_eq, Hfile, Hload. reflexivity.
Qed.

(** Nothing in [main] catches what the loader raises: the exception reaches
    the top level and the run ends with status 1. *)
Remark manifest_error_reaches_top (c : command) (w w1 w2 : world) e :
  c <> CmdClean ->
  (forall code, e <> SystemExit code) ->
  check_pandoc spawn (World (fs w) (trace w ++ banner)) = (Ok true, w1) ->
  load_chapters BUILD_DIR safe_load w1 = (Raise e, w2) ->
  let r := main BUILD_DIR safe_load spawn c w in
  r = (Raise e, w2) /\ exit_status r.1 = 1%Z.
Proof.
  intros Hc He Hcheck Hload r.
  assert (Hr : r = (Raise e, w2)).
  { subst r. rewrite main_banner.
    destruct c; try contradiction; cbn [command_eqb];
      unfold main_prepare;
      rewrite ?bind_unfold, Hcheck; cbn [negb]; cbv beta iota;
      rewrite ?bind_unfold, Hload; reflexivity. }
  split; [exact Hr|]. rewrite Hr. cbn [fst].
  destruct e; try reflexivity. exfalso. eapply He; reflexivity.
Qed.

(** *** One format alone *)

Lemma main_build_single (f : format) chapters (w w1 : world) b :
  builder_of BUILD_DIR spawn f chapters w = (Ok b, w1) ->
  main_build BUILD_DIR spawn (command_of f) chapters w =
  (if b then Ok tt else Raise (SystemExit 1),
   World (fs w1) (trace w1 ++ verdict DIST b)).
Proof.
  intros H. unfold main_build.
  destruct f; cbn [command_of command_in existsb command_eqb orb builder_of] in *;
    repeat (rewrite bind_unfold; cbn [mret M_ret]; cbv beta iota);
    rewrite H; cbn [mret M_ret]; cbv beta iota;
    repeat (rewrite bind_unfold; cbn [mret M_ret]; cbv beta iota);
    rewrite print_eq; cbv beta iota;
    destruct b; cbn [andb verdict fs trace];
    rewrite ?bind_unfold, print_eq; cbv beta iota; cbn [fs trace];
    rewrite ?print_eq; unfold sys_exit, raise; cbn [fs trace];
    rewrite <- !app_assoc; reflexivity.
Qed.

(** X1.  For [pdf], [html] or [epub], once the preparation has gone
    through, [main] runs the builder of that format and no other: the run
    ends in the world that builder left, with the verdict lines appended,
    normally when the builder returned true and with sys.exit(1) when it
    returned false. *)
Theorem single_format_runs_one_builder (f : format) (w w0 w1 : world) chapters b :
  main_prepare BUILD_DIR safe_load spawn (World (fs w) (trace w ++ banner))
    = (Ok chapters, w0) ->
  builder_of BUILD_DIR spawn f chapters w0 = (Ok b, w1) ->
  let r := main BUILD_DIR safe_load spawn (command_of f) w in
  r = (if b then Ok tt else Raise (SystemExit 1),
       World (fs w1) (trace w1 ++ verdict DIST b)) /\
  exit_status r.1 = (if b then 0 else 1)%Z.
Proof.
  intros Hprep Hbuild r.
  assert (Hr : r = (if b then Ok tt else Raise (SystemExit 1),
                    World (fs w1) (trace w1 ++ verdict DIST b))).
  { subst r. rewrite main_banner.
    replace (command_eqb (command_of f) CmdClean) with false by (destruct f; reflexivity).
    rewrite bind_unfold, Hprep. apply main_build_single, Hbuild. }
  split; [exact Hr|]. rewrite Hr. destruct b; reflexivity.
Qed.

(** *** The version line *)

Lemma split_on_nonempty sep s : Pathlib.split_on sep s <> [].
Proof.
  destruct s as [|c s]; cbn; [discriminate|].
  destruct (Ascii.eqb c sep); [discriminate|].
  destruct (Pathlib.split_on sep s); discriminate.
Qed.

(** X2.  The version that [check_pandoc] reports is the standard output up
    to its first newline: it holds no newline, and the output is either
    that line alone or that line, a newline and the rest. *)
Theorem first_line_spec (s : string) :
  occurs newline (first_line s) = false /\
  (s = first_line s \/
   exists rest, s = String.append (first_line s) (String newline rest)).
Proof.
  unfold first_line, newline. induction s as [|c s [IHno IHsplit]].
  - cbn. auto.
  - cbn [Pathlib.split_on].
    destruct (Ascii.eqb_spec c "010"%char) as [->|Hne].
    + cbn. split; [reflexivity|]. right. exists s. reflexivity.
    + pose proof (split_on_nonempty "010"%char s) as Hnil.
      destruct (Pathlib.split_on "010"%char s) as [|piece pieces]; [contradiction|].
      cbn [hd] in *. split.
      * cbn [occurs]. rewrite IHno.
        destruct (Ascii.eqb_spec c "010"%char); [contradiction|reflexivity].
      * destruct IHsplit as [E | [rest E]].
        -- left. f_equal. exact E.
        -- right. exists rest. rewrite E at 1. reflexivity.
Qed.

(** X3.  [check_pandoc] returns true exactly when the version query ran and
    ended with return code 0; a missing executable or a non-zero return
    code gives false, never an exception; any other failure to start the
    process is not caught.  The filesystem is whatever the query left. *)
Theorem check_pandoc_verdict (w : world) :
  let o := (spawn version_cmd None (fs w)).1 in
  let r := check_pandoc spawn w in
  r.1 = match o with
        | Completed returncode _ => Ok (returncode =? 0)%Z
        | SpawnError FileNotFoundError => Ok false
        | SpawnError (CalledProcessError _) => Ok false
        | SpawnError e => Raise e
        end /\
  fs r.2 = (spawn version_cmd None (fs w)).2 /\
  (r.1 = Ok true <-> exists out, o = Completed 0 out) /\
  (forall out, o = Completed 0 out ->
     trace r.2 = trace w ++ [Spawn version_cmd None;
                             Print (MsgFoundPandoc (first_line out))]).
Proof.
  cbv zeta. rewrite check_pandoc_eq. cbv zeta.
  destruct (spawn version_cmd None (fs w)).1 as [rc out|e]; cbn [run_result andb].
  - destruct (Z.eqb_spec rc 0) as [->|Hrc]; cbn [negb fst snd fs trace].
    + repeat split; eauto. intros out' E. injection E as <-. reflexivity.
    + repeat split; try discriminate.
      * intros [out' E]. congruence.
      * intros out' E. congruence.
  - destruct e; cbn [fst snd fs trace]; repeat split; try discriminate;
      try (intros [out' E]; discriminate); intros out' E; discriminate.
Qed.

(** *** What a builder returns *)

Lemma builder_of_eq (f : format) chapters (w : world) :
  builder_of BUILD_DIR spawn f chapters w =
  match announce BUILD_DIR f w with
  | (Ok _, w0) =>
      let cmd := cmd_of BUILD_DIR f chapters in
      let m := (spawn cmd (Some DOCS) (fs w0)).2 in
      let t := trace w0 ++ [Spawn cmd (Some DOCS)] in
      match run_result (spawn cmd (Some DOCS) (fs w0)).1 true with
      | Ok _ => (Ok true, World m (t ++ [Print (MsgGenerated f (output_path BUILD_DIR f))]))
      | Raise (CalledProcessError rc) =>
          (Ok false, World m (t ++ [Print (MsgBuildFailed f (CalledProcessError rc))]))
      | Raise FileNotFoundError =>
          match f with
          | PDF => (Ok false, World m (t ++ [Print MsgXelatexNotFound]))
          | _ => (Raise FileNotFoundError, World m t)
          end
      | Raise e => (Raise e, World m t)
      end
  | (Raise e, w0) => (Raise e, w0)
  end.
Proof.
  destruct f; cbn [builder_of announce cmd_of output_path].
  - rewrite build_pdf_eq, print_eq. cbv zeta. cbn [fs trace].
    destruct (run_result _ true) as [r|e]; [|destruct e];
      rewrite <- ?app_assoc; reflexivity.
  - rewrite build_html_eq.
    destruct (build_html_prepare BUILD_DIR w) as [[[]|e] w0]; [|reflexivity].
    cbv zeta. destruct (run_result _ true) as [r|e]; [|destruct e]; reflexivity.
  - rewrite build_epub_eq, print_eq. cbv zeta. cbn [fs trace].
    destruct (run_result _ true) as [r|e]; [|destruct e];
      rewrite <- ?app_assoc; reflexivity.
Qed.

(** X4.  When the converter runs to the end, a builder returns true exactly
    when the return code is 0.  On success it prints the path of the file
    it asked for; on failure it prints the error with the return code.  The
    builder itself leaves the filesystem to the converter. *)
Theorem builder_reflects_returncode (f : format) chapters (w w0 : world) rc out :
  announce BUILD_DIR f w = (Ok tt, w0) ->
  (spawn (cmd_of BUILD_DIR f chapters) (Some DOCS) (fs w0)).1 = Completed rc out ->
  builder_of BUILD_DIR spawn f chapters w =
  (Ok (rc =? 0)%Z,
   World (spawn (cmd_of BUILD_DIR f chapters) (Some DOCS) (fs w0)).2
         (trace w0 ++
          [Spawn (cmd_of BUILD_DIR f chapters) (Some DOCS);
           Print (if (rc =? 0)%Z
                  then MsgGenerated f (output_path BUILD_DIR f)
                  else MsgBuildFailed f (CalledProcessError rc))])).
Proof.
  intros Hann Hrun. rewrite builder_of_eq, Hann. cbv zeta. rewrite Hrun.
  cbn [run_result andb]. destruct (rc =? 0)%Z; cbn [negb];
    rewrite <- app_assoc; reflexivity.
Qed.

(** *** The resolver on mixed lists *)

(** X5.  An entry of the chapter list that is not a string stops the
    resolver with TypeError: no path is returned, the names before it (all
    within the system's limits on the length of names) have been looked up
    and their warnings printed, and nothing after it is looked at. *)
Theorem get_chapter_paths_type_error (w : world) (names : list string)
    (bad : pyval) (rest : list pyval) :
  acceptable DOCS names ->
  (forall s, bad <> PyStr s) ->
  get_chapter_paths BUILD_DIR (PyList (List.map PyStr names ++ bad :: rest)) w =
  (Raise TypeError,
   World (fs w)
         (trace w ++
          List.map warning (List.filter (fun n => negb (present (fs w) n)) names))).
Proof.
  intros Hfit Hbad. unfold get_chapter_paths.
  rewrite bind_unfold. unfold lift. cbn [Py.iter].
  rewrite get_chapter_paths_loop_app by exact Hfit.
  destruct bad; try reflexivity. exfalso. eapply Hbad; reflexivity.
Qed.

(** *** The manifest that cannot be read *)



(** X7.  A manifest in which one of the two keys holds a list (or is
    absent) and the other is present with a value that is not a list makes
    the loader raise TypeError: the default covers an absent key only. *)
Theorem load_chapters_non_list_field (w : world) text items l v :
  fs w !! MANIFEST = Some (File text) ->
  safe_load text = Ok (PyDict items) ->
  (forall l', v <> PyList l') ->
  (has_list_field items "chapters" l /\ Py.dict_lookup items "appendices" = Some v) \/
  (Py.dict_lookup items "chapters" = Some v /\ has_list_field items "appendices" l) ->
  load_chapters BUILD_DIR safe_load w =
  (Raise TypeError, World (fs w) (trace w ++ [Open MANIFEST])).
Proof.
  intros Hfile Hload Hv Hcase. rewrite load_chapters_eq, Hfile, Hload.
  destruct Hcase as [[Hl Hother] | [Hother Hl]];
    rewrite (get_list_field _ _ _ Hl); cbn [Py.get]; rewrite Hother;
    destruct v; try reflexivity; exfalso; eapply Hv; reflexivity.
Qed.

(** *** From the manifest to the chapter paths *)

(** X8.  With the environment check passed, a manifest whose two lists
    hold the names [names] (all within the system's limits on the length
    of names), at least one of them found on disk, and the output directory
    in place or its parent in place, the preparation returns the paths of
    the names that are found, in manifest order (chapters before
    appendices), reports the number of names listed, warns once per name
    not found and leaves the output directory in place. *)
Theorem prepare_resolves_manifest (w : world) out m1 text items chs apps names :
  spawn version_cmd None (fs w) = (Completed 0 out, m1) ->
  m1 !! MANIFEST = Some (File text) ->
  safe_load text = Ok (PyDict items) ->
  has_list_field items "chapters" chs ->
  has_list_field items "appendices" apps ->
  chs ++ apps = List.map PyStr names ->
  acceptable DOCS names ->
  List.filter (present m1) names <> [] ->
  m1 !! DIST = Some Dir \/ (m1 !! DIST = None /\ m1 !! DOCS = Some Dir) ->
  main_prepare BUILD_DIR safe_load spawn w =
  (Ok (List.map (joined DOCS) (List.filter (present m1) names)),
   World (<[DIST := Dir]> m1)
         (trace w ++
          [Spawn version_cmd None; Print (MsgFoundPandoc (first_line out));
           Open MANIFEST; Print (MsgFoundChapters (length names))] ++
          List.map warning (List.filter (fun n => negb (present m1 n)) names) ++
          [Mkdir DIST])).
Proof.
  intros Hspawn Hfile Hload Hchs Happs Hnames Hfit Hsome Hdist.
  unfold main_prepare.
  rewrite bind_unfold, check_pandoc_eq. cbv zeta. rewrite Hspawn.
  cbn [fst snd run_result andb negb Z.eqb]. cbv beta iota.
  rewrite bind_unfold, load_chapters_eq. cbn [fs trace].
  rewrite Hfile, Hload.
  rewrite (get_list_field _ _ _ Hchs), (get_list_field _ _ _ Happs).
  cbn [Py.add]. rewrite Hnames. cbv beta iota.
  rewrite bind_unfold. unfold lift at 1. cbn [Py.len]. cbv beta iota.
  rewrite bind_unfold, print_eq. cbv beta iota. cbn [fs trace].
  rewrite bind_unfold. unfold get_chapter_paths.
  rewrite bind_unfold. unfold lift at 1. cbn [Py.iter]. cbv beta iota.
  rewrite get_chapter_paths_loop_eq by exact Hfit. cbn [fs trace app].
  destruct (List.filter (present m1) names) as [|name found] eqn:Hfound;
    [contradiction|].
  cbn [List.map]. rewrite bind_unfold, ensure_dist_dir_eq. cbn [fs trace].
  rewrite length_map.
  destruct Hdist as [Hd | [Hd Hp]].
  - rewrite Hd. cbn [mret M_ret]. rewrite (insert_id m1 DIST Dir Hd).
    rewrite <- !app_assoc. reflexivity.
  - rewrite Hd, Hp. cbn [mret M_ret]. rewrite <- !app_assoc. reflexivity.
Qed.

(** *** Undoing a preparation *)

Lemma outside_deeper (p s q : path) : Fs.outside p q -> Fs.outside (p ++ s) q.
Proof.
  unfold Fs.outside. revert q. induction p as [|a p IH]; intros q H.
  - discriminate.
  - destruct q as [|b q]; [reflexivity|]. cbn in *.
    destruct (String.eqb a b); [auto|reflexivity].
Qed.

Lemma IMAGES_DST_eq : IMAGES_DST = DIST ++ ["html"; "images"].
Proof.
  change IMAGES_DST with ((DIST ++ ["html"]) ++ ["images"]).
  rewrite <- app_assoc. reflexivity.
Qed.

(** X9.  On a tree-shaped filesystem whose document root is a directory,
    without an output directory and with "images" a directory or absent
    (not a regular file), making the output directory, preparing the HTML
    output (directory and images) and then cleaning gives back the
    filesystem one started from: all that the preparation creates lies
    under the output directory. *)
Theorem html_prepare_then_clean_restores (w : world) :
  wf_fs (fs w) ->
  fs w !! DIST = None ->
  fs w !! DOCS = Some Dir ->
  (forall content, fs w !! IMAGES_SRC <> Some (File content)) ->
  exists w1 w2 w3,
    ensure_dist_dir BUILD_DIR w = (Ok tt, w1) /\
    build_html_prepare BUILD_DIR w1 = (Ok tt, w2) /\
    clean BUILD_DIR w2 = (Ok tt, w3) /\
    fs w3 = fs w.
Proof.
  intros Hwf Hdist Hdocs Hsrc.
  set (m1 := <[DIST := Dir]> (fs w)).
  assert (Hwf1 : wf_fs m1).
  { apply wf_insert_dir; [exact Hwf|]. rewrite parent_DIST. exact Hdocs. }
  assert (Hdist1 : m1 !! DIST = Some Dir) by apply lookup_insert_eq.
  assert (Hbelow : forall s, fs w !! (DIST ++ s) = None).
  { intros s. apply wf_absent_below; assumption. }
  assert (Hm1 : forall q, q <> DIST -> m1 !! q = fs w !! q).
  { intros q Hq. apply lookup_insert_ne. congruence. }
  assert (Hhtml_ne : HTML_DIR <> DIST).
  { change HTML_DIR with (DIST ++ ["html"]). intros E.
    apply (f_equal length) in E. rewrite length_app in E. cbn in E. lia. }
  assert (Hdst_ne : IMAGES_DST <> DIST).
  { rewrite IMAGES_DST_eq. intros E.
    apply (f_equal length) in E. rewrite length_app in E. cbn in E. lia. }
  assert (Hdst_html : IMAGES_DST <> HTML_DIR).
  { change IMAGES_DST with (HTML_DIR ++ ["images"]). intros E.
    apply (f_equal length) in E. rewrite length_app in E. cbn in E. lia. }
  assert (Hsrc_ne : IMAGES_SRC <> DIST).
  { change IMAGES_SRC with (DOCS ++ ["images"]). rewrite DIST_eq.
    intros E. apply app_inv_head in E. discriminate. }
  set (w1 := World m1 (trace w ++ [Mkdir DIST])).
  destruct (build_html_prepare_mkdir w1) as (m2 & Hprep & Hwf2 & Hhtml2 & Hm2).
  { exact Hwf1. }
  { exact Hdist1. }
  { intros content. cbn [fs]. rewrite Hm1 by exact Hhtml_ne.
    change HTML_DIR with (DIST ++ ["html"]). rewrite Hbelow. discriminate. }
  cbn [fs trace] in *.
  assert (Hcopy : exists m3 t3,
    copy_images IMAGES_SRC IMAGES_DST
      (World m2 ((trace w ++ [Mkdir DIST]) ++ [Print (MsgBuilding HTML); Mkdir HTML_DIR]))
      = (Ok tt, World m3 t3) /\
    forall q, Fs.outside IMAGES_DST q -> m3 !! q = m2 !! q).
  { assert (Hsrc2 : m2 !! IMAGES_SRC = fs w !! IMAGES_SRC).
    { rewrite Hm2 by apply images_src_neq. apply Hm1, Hsrc_ne. }
    destruct (fs w !! IMAGES_SRC) as [[|content]|] eqn:Hs.
    - destruct (copy_images_replaces IMAGES_SRC HTML_DIR "images"
                  (World m2 ((trace w ++ [Mkdir DIST]) ++
                             [Print (MsgBuilding HTML); Mkdir HTML_DIR])))
        as (m3 & Hrun & _ & Hrest); cbn [fs trace]; try assumption.
      + intros content. change (HTML_DIR ++ ["images"]) with IMAGES_DST.
        rewrite Hm2 by exact Hdst_html. rewrite Hm1 by exact Hdst_ne.
        rewrite IMAGES_DST_eq, Hbelow. discriminate.
      + intros s. apply images_src_outside_dst.
      + change (HTML_DIR ++ ["images"]) with IMAGES_DST in *. eauto.
    - exfalso. eapply Hsrc; reflexivity.
    - rewrite copy_images_eq. cbn [fs trace]. rewrite Hsrc2. eauto. }
  destruct Hcopy as (m3 & t3 & Hcopy & Hrest).
  assert (Hdist3 : m3 !! DIST = Some Dir).
  { rewrite Hrest.
    - rewrite Hm2; [exact Hdist1|]. intros E. apply Hhtml_ne. symmetry. exact E.
    - apply strip_prefix_shorter. rewrite IMAGES_DST_eq, length_app. cbn. lia. }
  exists w1, (World m3 t3), (World (Fs.remove_tree DIST m3)
                                   (t3 ++ [Print MsgCleaning; Rmtree DIST; Print MsgRemoved])).
  split; [|split; [|split]].
  - rewrite ensure_dist_dir_eq, Hdist, Hdocs. reflexivity.
  - rewrite Hprep. exact Hcopy.
  - rewrite clean_eq. cbn [fs trace]. rewrite Hdist3. reflexivity.
  - cbn [fs]. apply map_eq. intros q. rewrite remove_tree_lookup.
    destruct (Fs.strip_prefix DIST q) as [s|] eqn:Hq.
    + apply strip_prefix_Some in Hq. subst q. symmetry. apply Hbelow.
    + rewrite Hrest.
      * rewrite Hm2.
        -- apply Hm1. apply outside_neq. exact Hq.
        -- intros ->. change HTML_DIR with (DIST ++ ["html"]) in Hq.
           rewrite strip_prefix_app in Hq. discriminate.
      * rewrite IMAGES_DST_eq. apply outside_deeper. exact Hq.
Qed.

(** X10.  Cleaning twice is cleaning once: after a first [clean] the
    second finds nothing to remove, says so, and leaves the filesystem as
    the first one left it. *)
Theorem clean_twice (w : world) :
  fs w !! DIST = Some Dir \/ fs w !! DIST = None ->
  exists w1,
    clean BUILD_DIR w = (Ok tt, w1) /\
    clean BUILD_DIR w1 =
      (Ok tt, World (fs w1) (trace w1 ++ [Print MsgCleaning; Print MsgAlreadyClean])).
Proof.
  intros H. rewrite clean_eq.
  destruct H as [H|H]; rewrite H; eexists; (split; [reflexivity|]);
    rewrite clean_eq; cbn [fs trace].
  - pose proof (remove_tree_below DIST [] (fs w)) as Hgone.
    rewrite app_nil_r in Hgone. rewrite Hgone. reflexivity.
  - rewrite H. reflexivity.
Qed.

(** X11.  The HTML builder tests "images" under the document root with
    [exists()] only.  When a regular file sits there and an earlier copy is
    in the output directory, that copy is removed first and the copying
    then raises NotADirectoryError: the builder fails, the converter is not
    run, and the earlier copy is gone. *)
Theorem images_regular_file_loses_copy (chapters : list path) (w : world) content :
  fs w !! HTML_DIR = Some Dir ->
  fs w !! IMAGES_DST = Some Dir ->
  fs w !! IMAGES_SRC = Some (File content) ->
  build_html BUILD_DIR spawn chapters w =
  (Raise NotADirectoryError,
   World (Fs.remove_tree IMAGES_DST (fs w))
         (trace w ++ [Print (MsgBuilding HTML); Mkdir HTML_DIR;
                      Rmtree IMAGES_DST; Copytree IMAGES_SRC IMAGES_DST])) /\
  forall s, Fs.remove_tree IMAGES_DST (fs w) !! (IMAGES_DST ++ s) = None.
Proof.
  intros Hhtml Hdst Hsrc. split; [|intros s; apply remove_tree_below].
  rewrite build_html_eq. unfold build_html_prepare.
  rewrite bind_unfold, print_eq, bind_unfold, mkdir_eq. cbn [fs trace].
  rewrite Hhtml. rewrite copy_images_eq. cbn [fs trace]. rewrite Hsrc, Hdst.
  rewrite copytree_eq. cbv zeta. cbn [fs trace].
  pose proof (images_src_outside_dst []) as Hout. rewrite app_nil_r in Hout.
  rewrite (remove_tree_outside _ _ _ Hout), Hsrc.
  rewrite <- !app_assoc. reflexivity.
Qed.

(** *** Exit statuses *)

Lemma tame_ret {A} (a : A) : raises_tame (mret a : M A).
Proof. intros w e w' H. discriminate. Qed.

Lemma tame_bind {A B} (m : M A) (k : A -> M B) :
  raises_tame m -> (forall a, raises_tame (k a)) -> raises_tame (m ≫= k).
Proof.
  intros Hm Hk w e w' H. rewrite bind_unfold in H.
  destruct (m w) as [[a|e0] w0] eqn:Hmw.
  - eapply Hk, H.
  - injection H as <- <-. eapply Hm, Hmw.
Qed.

Lemma tame_try {A} (body : M A) (handler : exn -> option (M A)) :
  raises_tame body ->
  (forall e h, handler e = Some h -> raises_tame h) ->
  raises_tame (try_except body handler).
Proof.
  intros Hbody Hh w e w' H. unfold try_except in H.
  destruct (body w) as [[a|e0] w0] eqn:Hb; [discriminate|].
  destruct (handler e0) as [h|] eqn:Hhe.
  - eapply Hh; eauto.
  - injection H as <- <-. eapply Hbody, Hb.
Qed.

Lemma tame_emit (x : effect) : raises_tame (emit x).
Proof. intros w e w' H. discriminate. Qed.

Lemma tame_print (m : message) : raises_tame (print m).
Proof. apply tame_emit. Qed.

Lemma tame_sys_exit {A} : raises_tame (sys_exit 1 : M A).
Proof. intros w e w' H. injection H as <- _. reflexivity. Qed.

Lemma tame_lift {A} (r : result A) :
  (forall e, r = Raise e -> tame e) -> raises_tame (lift r).
Proof. intros Hr w e w' H. injection H as -> _. auto. Qed.

Lemma tame_on_fs {A} (step : gmap path node -> result A * gmap path node) :
  (forall m e m', step m = (Raise e, m') -> tame e) -> raises_tame (on_fs step).
Proof.
  intros Hs w e w' H. unfold on_fs in H.
  destruct (step (fs w)) as [r m'] eqn:Hstep. injection H as -> _. eauto.
Qed.

Lemma walk_tame (m : gmap path node) (todo : path) :
  forall cur e, Fs.walk m cur todo = Raise e -> tame e.
Proof.
  induction todo as [|c rest IH]; intros cur e H; cbn [Fs.walk] in H;
    [discriminate|].
  destruct (m !! cur) as [[|content]|]; try discriminate.
  destruct (String.eqb c ".."); [eapply IH, H|].
  destruct (Fs.NAME_MAX <? String.length c)%nat; [|eapply IH, H].
  injection H as <-. exact I.
Qed.

Lemma tame_path_exists_any p : raises_tame (path_exists_any p).
Proof.
  apply tame_on_fs. intros m e m' H. cbv beta in H.
  destruct (Fs.stat m p) as [node|e0] eqn:Hstat; [discriminate|].
  injection H as <- _. unfold Fs.stat in Hstat.
  destruct (Fs.PATH_MAX <=? String.length (path_str p))%nat.
  - injection Hstat as <-. exact I.
  - eapply walk_tame, Hstat.
Qed.

Lemma tame_path_exists p : raises_tame (path_exists p).
Proof. apply tame_on_fs. intros m e m' H. discriminate. Qed.

Lemma tame_mkdir p exist_ok : raises_tame (mkdir p exist_ok).
Proof.
  apply tame_bind; [apply tame_emit|intros _]. apply tame_on_fs.
  intros m e m' H.
  destruct (m !! p) as [[|c]|]; [destruct exist_ok| |destruct (m !! parent p) as [[|c]|]];
    injection H as <- _ || discriminate; exact I.
Qed.

Lemma tame_rmtree p : raises_tame (rmtree p).
Proof.
  apply tame_bind; [apply tame_emit|intros _]. apply tame_on_fs.
  intros m e m' H.
  destruct (m !! p) as [[|c]|]; injection H as <- _ || discriminate; exact I.
Qed.

Lemma makedirs_from_tame (todo : path) :
  forall done m e, Fs.makedirs_from done todo m = Raise e -> tame e.
Proof.
  induction todo as [|c rest IH]; intros done m e H; [discriminate|].
  cbn [Fs.makedirs_from] in H.
  destruct (m !! (done ++ [c])) as [[|content]|]; destruct rest;
    try (injection H as <-; exact I); eapply IH; exact H.
Qed.

Lemma tame_copytree src dst : raises_tame (copytree src dst).
Proof.
  apply tame_bind; [apply tame_emit|intros _]. apply tame_on_fs.
  intros m e m' H.
  destruct (m !! src) as [[|c]|]; try (injection H as <- _; exact I).
  destruct (Fs.makedirs_from [] dst m) as [m0|e0] eqn:Hmk; [discriminate|].
  injection H as <- _. eapply makedirs_from_tame, Hmk.
Qed.

Lemma tame_read_file p : raises_tame (read_file p).
Proof.
  apply tame_bind; [apply tame_emit|intros _]. apply tame_on_fs.
  intros m e m' H.
  destruct (m !! p) as [[|c]|]; injection H as <- _ || discriminate; exact I.
Qed.

Lemma py_get_tame obj key default e : Py.get obj key default = Raise e -> tame e.
Proof. destruct obj; cbn; intros H; injection H as <- || discriminate; exact I. Qed.

Lemma py_add_tame a b e : Py.add a b = Raise e -> tame e.
Proof.
  destruct a, b; cbn; unfold Py.add_int_float;
    try match goal with |- context [Py.converts_to_float ?x] =>
          destruct (Py.converts_to_float x) end;
    intros H; injection H as <- || discriminate; exact I.
Qed.

Lemma py_len_tame v e : Py.len v = Raise e -> tame e.
Proof. destruct v; cbn; intros H; injection H as <- || discriminate; exact I. Qed.

Lemma py_iter_tame v e : Py.iter v = Raise e -> tame e.
Proof. destruct v; cbn; intros H; injection H as <- || discriminate; exact I. Qed.

Lemma tame_get_chapter_paths_loop (items : list pyval) :
  forall paths, raises_tame (get_chapter_paths_loop BUILD_DIR items paths).
Proof.
  induction items as [|item items IH]; intros paths; [apply tame_ret|].
  destruct item; cbn [get_chapter_paths_loop];
    try (intros w e w' H; injection H as <- _; exact I).
  apply tame_bind; [apply tame_path_exists_any|intros found].
  destruct found; [apply IH|].
  apply tame_bind; [apply tame_print|intros _]. apply IH.
Qed.

Lemma tame_copy_images src dst : raises_tame (copy_images src dst).
Proof.
  unfold copy_images. apply tame_bind; [apply tame_path_exists|intros b1].
  destruct b1; [|apply tame_ret].
  apply tame_bind; [apply tame_path_exists|intros b2].
  apply tame_bind; [|intros _; apply tame_copytree].
  destruct b2; [apply tame_rmtree|apply tame_ret].
Qed.

Section Tame.

(** The system and the parser raise no SystemExit of their own. *)
Hypothesis spawn_tame :
  forall cmd cwd m e, (spawn cmd cwd m).1 = SpawnError e -> tame e.
Hypothesis safe_load_tame : forall text e, safe_load text = Raise e -> tame e.

Lemma tame_subprocess_run cmd cwd check :
  raises_tame (subprocess_run spawn cmd cwd check).
Proof.
  intros w e w' H. rewrite subprocess_run_eq in H. injection H as H _.
  destruct (spawn cmd cwd (fs w)).1 as [rc out|e0] eqn:Ho; cbn in H.
  - destruct (check && negb (rc =? 0)%Z); [injection H as <-; exact I|discriminate].
  - injection H as <-. eapply spawn_tame, Ho.
Qed.

Lemma tame_convert cmd cwd msg (handler : exn -> option (M bool)) :
  (forall e h, handler e = Some h -> raises_tame h) ->
  raises_tame
    (try_except
       (_ ← subprocess_run spawn cmd cwd true; _ ← print msg; mret true)
       handler).
Proof.
  intros Hh. apply tame_try; [|exact Hh].
  apply tame_bind; [apply tame_subprocess_run|intros _].
  apply tame_bind; [apply tame_print|intros _]. apply tame_ret.
Qed.

Lemma tame_report (m : message) : raises_tame (_ ← print m; mret false : M bool).
Proof. apply tame_bind; [apply tame_print|intros _; apply tame_ret]. Qed.

Lemma tame_builder (f : format) chapters :
  raises_tame (builder_of BUILD_DIR spawn f chapters).
Proof.
  destruct f; cbn [builder_of].
  - unfold build_pdf. apply tame_bind; [apply tame_print|intros _].
    apply tame_convert. intros e h H.
    destruct e; try discriminate; injection H as <-; apply tame_report.
  - unfold build_html. apply tame_bind.
    + unfold build_html_prepare.
      apply tame_bind; [apply tame_print|intros _].
      apply tame_bind; [apply tame_mkdir|intros _]. apply tame_copy_images.
    + intros _. apply tame_convert. intros e h H.
      destruct e; try discriminate; injection H as <-; apply tame_report.
  - unfold build_epub. apply tame_bind; [apply tame_print|intros _].
    apply tame_convert. intros e h H.
    destruct e; try discriminate; injection H as <-; apply tame_report.
Qed.

Lemma tame_main (c : command) : raises_tame (main BUILD_DIR safe_load spawn c).
Proof.
  unfold main.
  do 3 (apply tame_bind; [apply tame_print|intros _]).
  destruct (command_eqb c CmdClean).
  - unfold clean. apply tame_bind; [apply tame_print|intros _].
    apply tame_bind; [apply tame_path_exists|intros b].
    destruct b; [|apply tame_print].
    apply tame_bind; [apply tame_rmtree|intros _; apply tame_print].
  - apply tame_bind.
    + unfold main_prepare. apply tame_bind.
      * unfold check_pandoc. apply tame_try.
        -- apply tame_bind; [apply tame_subprocess_run|intros r].
           apply tame_bind; [apply tame_print|intros _]. apply tame_ret.
        -- intros e h H.
           destruct e; try discriminate; injection H as <-; apply tame_report.
      * intros ok. destruct ok; cbn [negb]; [|apply tame_sys_exit].
        apply tame_bind.
        { unfold load_chapters. apply tame_bind; [apply tame_read_file|intros text].
          apply tame_bind; [apply tame_lift, safe_load_tame|intros config].
          apply tame_bind; [apply tame_lift, py_get_tame|intros chapters].
          apply tame_bind; [apply tame_lift, py_get_tame|intros appendices].
          apply tame_lift, py_add_tame. }
        intros chapters_list.
        apply tame_bind; [apply tame_lift, py_len_tame|intros n].
        apply tame_bind; [apply tame_print|intros _].
        apply tame_bind.
        { unfold get_chapter_paths.
          apply tame_bind; [apply tame_lift, py_iter_tame|intros items].
          apply tame_get_chapter_paths_loop. }
        intros chapter_paths. destruct chapter_paths.
        -- apply tame_bind; [apply tame_print|intros _; apply tame_sys_exit].
        -- apply tame_bind; [apply tame_mkdir|intros _; apply tame_ret].
    + intros chapter_paths. unfold main_build.
      apply tame_bind.
      { destruct (command_in c [CmdPdf; CmdAll]); [|apply tame_ret].
        apply tame_bind; [apply (tame_builder PDF)|intros ok; apply tame_ret]. }
      intros s1. apply tame_bind.
      { destruct (command_in c [CmdHtml; CmdAll]); [|apply tame_ret].
        apply tame_bind; [apply (tame_builder HTML)|intros ok; apply tame_ret]. }
      intros s2. apply tame_bind.
      { destruct (command_in c [CmdEpub; CmdAll]); [|apply tame_ret].
        apply tame_bind; [apply (tame_builder EPUB)|intros ok; apply tame_ret]. }
      intros s3. apply tame_bind; [apply tame_print|intros _].
      destruct s3.
      * apply tame_bind; [apply tame_print|intros _; apply tame_print].
      * apply tame_bind; [apply tame_print|intros _; apply tame_sys_exit].
Qed.

(** X12.  As long as neither the system nor the parser raises a SystemExit
    of its own, every run of [main], on any command and from any state,
    ends with exit status 0 or 1: 0 exactly when [main] returns, 1 for
    sys.exit(1) and for every exception that reaches the top level. *)
Theorem main_exit_status (c : command) (w : world) :
  let r := main BUILD_DIR safe_load spawn c w in
  (exit_status r.1 = 0%Z /\ r.1 = Ok tt) \/
  (exit_status r.1 = 1%Z /\ exists e, r.1 = Raise e).
Proof.
  cbv zeta.
  destruct (main BUILD_DIR safe_load spawn c w) as [[[]|e] w'] eqn:Hrun.
  - left. split; reflexivity.
  - right. split; [|eauto]. pose proof (tame_main c w e w' Hrun) as Ht.
    destruct e; try reflexivity. exact Ht.
Qed.

End Tame.

(** *** The two forms of [exists()] agree on the script's own paths *)

Lemma wf_proper_prefix_dir (m : gmap path node) (p s : path) n :
  wf_fs m -> m !! (p ++ s) = Some n -> s <> [] -> m !! p = Some Dir.
Proof.
  intros Hwf H Hs. destruct s as [|c s _] using rev_ind; [contradiction|].
  assert (Hne : p ++ s ++ [c] <> []) by (destruct p, s; discriminate).
  pose proof (Hwf _ _ H Hne) as Hpar.
  rewrite app_assoc, parent_joined in Hpar.
  apply (wf_above_dir m p s Hwf Hpar).
Qed.

Lemma walk_literal (m : gmap path node) (todo : path) :
  wf_fs m ->
  Forall (fun c => c <> "..") todo ->
  forallb (fun c => (String.length c <=? Fs.NAME_MAX)%nat) todo = true ->
  forall cur, Fs.walk m cur todo = Ok (m !! (cur ++ todo)).
Proof.
  intros Hwf. induction todo as [|c rest IH]; intros Hplain Hlen cur.
  - cbn. rewrite app_nil_r. reflexivity.
  - apply Forall_cons in Hplain as [Hc Hplain].
    cbn [forallb] in Hlen. apply andb_true_iff in Hlen as [Hclen Hlen].
    cbn [Fs.walk].
    destruct (m !! cur) as [[|content]|] eqn:Hcur.
    + destruct (String.eqb_spec c ".."); [contradiction|].
      apply Nat.leb_le in Hclen.
      destruct (Nat.ltb_spec Fs.NAME_MAX (String.length c)); [lia|].
      rewrite IH by assumption. rewrite <- app_assoc. reflexivity.
    + destruct (m !! (cur ++ c :: rest)) as [n|] eqn:Hn; [|reflexivity].
      pose proof (wf_proper_prefix_dir m cur (c :: rest) n Hwf Hn ltac:(discriminate)).
      congruence.
    + destruct (m !! (cur ++ c :: rest)) as [n|] eqn:Hn; [|reflexivity].
      pose proof (wf_proper_prefix_dir m cur (c :: rest) n Hwf Hn ltac:(discriminate)).
      congruence.
Qed.

(** On a tree-shaped filesystem, for a path without ".." and within the
    system's limits, the walk of the system ends where the path says: the
    general [exists()] is the plain lookup used for the script's own
    paths. *)
Lemma path_exists_any_normal (p : path) (w : world) :
  wf_fs (fs w) ->
  Forall (fun c => c <> "..") p ->
  Fs.within_limits p = true ->
  path_exists_any p w = path_exists p w.
Proof.
  intros Hwf Hplain Hfit. rewrite path_exists_any_eq, path_exists_eq.
  unfold Fs.within_limits in Hfit. apply andb_true_iff in Hfit as [Hpath Hnames].
  unfold Fs.stat. apply Nat.ltb_lt in Hpath.
  destruct (Nat.leb_spec Fs.PATH_MAX (String.length (path_str p))); [lia|].
  rewrite walk_literal by assumption. reflexivity.
Qed.

(** A name the system refuses for its length is outside
    [get_chapter_paths_resolves]: the error of os.stat leaves [exists()]
    and the resolver, nothing is returned and the later names are not
    looked at. *)
Remark get_chapter_paths_stat_error (w : world) (name : string)
    (rest : list pyval) e :
  Fs.stat (fs w) (DOCS // name) = Raise e ->
  get_chapter_paths BUILD_DIR (PyList (PyStr name :: rest)) w
  = (Raise e, World (fs w) (trace w)).
Proof.
  intros H. unfold get_chapter_paths. rewrite bind_unfold. unfold lift.
  cbn [Py.iter get_chapter_paths_loop].
  rewrite bind_unfold, path_exists_any_eq, H. destruct w; reflexivity.
Qed.

End Properties.

(** ** The properties on the small book *)

(** C1 on the book, with a converter whose PDF engine is broken: the PDF
    builder returns false, the two others still run and return true, and
    the run ends with status 1. *)
Lemma all_runs_every_builder_witness :
  exit_status (main Demo.build_dir Demo.safe_load Demo.pandoc_no_latex CmdAll
                 (Demo.start Demo.tree)).1 = 1%Z.
Proof.
  set (w := Demo.start Demo.tree).
  set (chapters := [["book"; "intro.md"]; ["book"; "notes.md"]]).
  set (p := main_prepare Demo.build_dir Demo.safe_load Demo.pandoc_no_latex
              (World (fs w) (trace w ++ banner))).
  set (r1 := build_pdf Demo.build_dir Demo.pandoc_no_latex chapters p.2).
  set (r2 := build_html Demo.build_dir Demo.pandoc_no_latex chapters r1.2).
  set (r3 := build_epub Demo.build_dir Demo.pandoc_no_latex chapters r2.2).
  refine (proj1 (proj2 (all_runs_every_builder Demo.build_dir Demo.safe_load
            Demo.pandoc_no_latex w p.2 r1.2 r2.2 r3.2 chapters false true true
            _ _ _ _)));
    vm_compute; reflexivity.
Defined.

(** On that run the HTML and EPUB outputs are on disk, the PDF is not. *)
Example all_keeps_other_outputs :
  let r := main Demo.build_dir Demo.safe_load Demo.pandoc_no_latex CmdAll
             (Demo.start Demo.tree) in
  fs r.2 !! ["book"; "dist"; "html"; "index.html"] = Some (File "converted") /\
  fs r.2 !! ["book"; "dist"; "vizpsyche-book.epub"] = Some (File "converted") /\
  fs r.2 !! ["book"; "dist"; "vizpsyche-book.pdf"] = None.
Proof. vm_compute. repeat split. Qed.

(** C2 on the book's manifest. *)
Lemma load_chapters_concat_witness :
  (load_chapters Demo.build_dir Demo.safe_load (Demo.start Demo.tree)).1 =
  Ok (PyList [PyStr "intro.md"; PyStr "ghost.md"; PyStr "notes.md"]).
Proof.
  rewrite (load_chapters_concat Demo.build_dir Demo.safe_load (Demo.start Demo.tree)
             "book"
             [(PyStr "chapters", PyList [PyStr "intro.md"; PyStr "ghost.md"]);
              (PyStr "appendices", PyList [PyStr "notes.md"])]
             [PyStr "intro.md"; PyStr "ghost.md"] [PyStr "notes.md"]).
  - reflexivity.
  - vm_compute. reflexivity.
  - reflexivity.
  - left. reflexivity.
  - left. reflexivity.
Defined.

(** C3 on the book: the ghost chapter is warned about and left out. *)
Example get_chapter_paths_on_book :
  get_chapter_paths Demo.build_dir
    (PyList [PyStr "intro.md"; PyStr "ghost.md"; PyStr "notes.md"])
    (Demo.start Demo.tree) =
  (Ok [["book"; "intro.md"]; ["book"; "notes.md"]],
   World Demo.tree [Print (MsgChapterNotFound "ghost.md")]).
Proof. vm_compute. reflexivity. Qed.


(** C4 on a book whose manifest lists only a missing file. *)
Lemma no_chapters_aborts_witness :
  let ghosts := list_to_map (Demo.sources "ghosts") in
  let r := main Demo.build_dir Demo.safe_load Demo.pandoc CmdAll (Demo.start ghosts) in
  r.1 = Raise (SystemExit 1) /\ fs r.2 = ghosts.
Proof.
  set (ghosts := list_to_map (Demo.sources "ghosts") : gmap path node).
  set (w := Demo.start ghosts).
  set (r1 := check_pandoc Demo.pandoc (World (fs w) (trace w ++ banner))).
  set (r2 := load_chapters Demo.build_dir Demo.safe_load r1.2).
  set (r3 := get_chapter_paths Demo.build_dir (PyList [PyStr "ghost.md"])
               (World (fs r2.2) (trace r2.2 ++ [Print (MsgFoundChapters 1)]))).
  pose proof (no_chapters_aborts Demo.build_dir Demo.safe_load Demo.pandoc CmdAll
                w r1.2 r2.2 r3.2 (PyList [PyStr "ghost.md"]) 1) as H.
  refine (let H' := H _ _ _ _ _ in conj (f_equal fst (proj1 H')) (proj1 (proj2 (proj2 H'))));
    try discriminate; vm_compute; reflexivity.
Defined.

(** C5 on a machine without the converter. *)
Lemma check_pandoc_gates_builds_witness :
  main Demo.build_dir Demo.safe_load Demo.no_pandoc CmdPdf (Demo.start Demo.tree) =
  (Raise (SystemExit 1),
   World Demo.tree (banner ++ [Spawn version_cmd None; Print MsgPandocNotFound])).
Proof.
  destruct (check_pandoc_gates_builds Demo.build_dir Demo.safe_load Demo.no_pandoc
              CmdPdf (Demo.start Demo.tree)) as (Hr & _).
  - discriminate.
  - exact I.
  - exact Hr.
Defined.


(** C7 on the book before any build: the output directory is made. *)
Lemma ensure_dist_dir_creates_witness :
  exists w1,
    ensure_dist_dir Demo.build_dir (Demo.start Demo.tree) = (Ok tt, w1) /\
    fs w1 !! ["book"; "dist"] = Some Dir.
Proof.
  destruct (ensure_dist_dir_creates Demo.build_dir (Demo.start Demo.tree))
    as (w1 & Hrun & Hdir & _).
  - right. split; vm_compute; reflexivity.
  - exists w1. split; [exact Hrun|exact Hdir].
Defined.

(** C7 as stated fails where the parent of the output directory is
    missing: the call raises and the directory is not there afterwards. *)
Lemma ensure_dist_dir_no_parents :
  let w := Demo.start Demo.bare_tree in
  fs w !! ["book"] = None /\
  ensure_dist_dir Demo.build_dir w
    = (Raise FileNotFoundError, World Demo.bare_tree [Mkdir ["book"; "dist"]]) /\
  ~ (exists w1, ensure_dist_dir Demo.build_dir w = (Ok tt, w1)).
Proof.
  cbv zeta. split; [vm_compute; reflexivity|].
  assert (H : ensure_dist_dir Demo.build_dir (Demo.start Demo.bare_tree)
              = (Raise FileNotFoundError, World Demo.bare_tree [Mkdir ["book"; "dist"]]))
    by (vm_compute; reflexivity).
  split; [exact H|]. intros [w1 Hw1]. rewrite H in Hw1. discriminate.
Qed.

(** C8 on a machine where the converter cannot be started. *)
Lemma file_not_found_handling_witness :
  (build_pdf Demo.build_dir Demo.no_pandoc [] (Demo.start Demo.built_tree)).1 = Ok false /\
  (build_epub Demo.build_dir Demo.no_pandoc [] (Demo.start Demo.built_tree)).1
    = Raise FileNotFoundError /\
  (build_html Demo.build_dir Demo.no_pandoc [] (Demo.start Demo.built_tree)).1
    = Raise FileNotFoundError.
Proof.
  destruct (file_not_found_handling Demo.build_dir Demo.no_pandoc []
              (Demo.start Demo.built_tree)) as (Hpdf & Hepub & Hhtml);
    try reflexivity.
  rewrite Hpdf, Hepub, Hhtml. repeat split.
Defined.

(** C8 as stated fails for the HTML and EPUB builders: FileNotFoundError
    leaves the builder, no false is returned and no diagnostic is printed. *)
Lemma html_epub_file_not_found_uncaught :
  let w := Demo.start Demo.built_tree in
  let html := build_html Demo.build_dir Demo.no_pandoc [] w in
  let epub := build_epub Demo.build_dir Demo.no_pandoc [] w in
  html.1 = Raise FileNotFoundError /\ epub.1 = Raise FileNotFoundError /\
  html.1 <> Ok false /\ epub.1 <> Ok false /\
  (forall m, Print m ∈ trace html.2 -> m = MsgBuilding HTML) /\
  (forall m, Print m ∈ trace epub.2 -> m = MsgBuilding EPUB).
Proof.
  cbv zeta.
  assert (Hh : trace (build_html Demo.build_dir Demo.no_pandoc []
                        (Demo.start Demo.built_tree)).2
               = [Print (MsgBuilding HTML);
                  Mkdir ["book"; "dist"; "html"];
                  Rmtree ["book"; "dist"; "html"; "images"];
                  Copytree ["book"; "images"] ["book"; "dist"; "html"; "images"];
                  Spawn (html_cmd Demo.build_dir []) (Some ["book"])])
    by (vm_compute; reflexivity).
  assert (He : trace (build_epub Demo.build_dir Demo.no_pandoc []
                        (Demo.start Demo.built_tree)).2
               = [Print (MsgBuilding EPUB);
                  Spawn (epub_cmd Demo.build_dir []) (Some ["book"])])
    by (vm_compute; reflexivity).
  assert (Rh : (build_html Demo.build_dir Demo.no_pandoc []
                  (Demo.start Demo.built_tree)).1 = Raise FileNotFoundError)
    by (vm_compute; reflexivity).
  assert (Re : (build_epub Demo.build_dir Demo.no_pandoc []
                  (Demo.start Demo.built_tree)).1 = Raise FileNotFoundError)
    by (vm_compute; reflexivity).
  rewrite Hh, He, Rh, Re.
  split; [reflexivity|]. split; [reflexivity|].
  split; [discriminate|]. split; [discriminate|]. split.
  - intros m Hin.
    apply elem_of_cons in Hin as [Hin|Hin]; [congruence|].
    repeat (apply elem_of_cons in Hin as [Hin|Hin]; [discriminate|]).
    inversion Hin.
  - intros m Hin.
    apply elem_of_cons in Hin as [Hin|Hin]; [congruence|].
    repeat (apply elem_of_cons in Hin as [Hin|Hin]; [discriminate|]).
    inversion Hin.
Qed.

(** C9 on the book after an earlier build: the stale image is gone and the
    current one is in place. *)
Lemma html_images_replaced_witness :
  let r := build_html_prepare Demo.build_dir (Demo.start Demo.built_tree) in
  fs r.2 !! ["book"; "dist"; "html"; "images"; "old.png"] = None /\
  fs r.2 !! ["book"; "dist"; "html"; "images"; "logo.png"] = Some (File "logo").
Proof.
  destruct (html_images_replaced Demo.build_dir Demo.pandoc []
              (Demo.start Demo.built_tree)) as (Hcopy & _).
  - apply (bool_decide_unpack (wf_fs Demo.built_tree)). vm_compute. exact I.
  - vm_compute. reflexivity.
  - intros content. vm_compute. discriminate.
  - intros content. vm_compute. discriminate.
  - destruct Hcopy as (_ & Hsame & _); [vm_compute; reflexivity|].
    cbv zeta. split.
    + apply (Hsame ["old.png"]).
    + apply (Hsame ["logo.png"]).
Defined.

(** C10 on a book whose manifest file is empty. *)
Lemma load_chapters_requires_mapping_witness :
  (load_chapters Demo.build_dir Demo.safe_load
     (Demo.start (list_to_map (Demo.sources "")))).1 = Raise AttributeError.
Proof.
  apply (load_chapters_requires_mapping Demo.build_dir Demo.safe_load
           (Demo.start (list_to_map (Demo.sources ""))) "" PyNone).
  - vm_compute. reflexivity.
  - reflexivity.
Defined.

(** ** Further properties on the small book *)

(** X1 on the book: [epub] alone, with the working converter. *)
Lemma single_format_runs_one_builder_witness :
  exit_status (main Demo.build_dir Demo.safe_load Demo.pandoc CmdEpub
                 (Demo.start Demo.tree)).1 = 0%Z.
Proof.
  set (w := Demo.start Demo.tree).
  set (chapters := [["book"; "intro.md"]; ["book"; "notes.md"]]).
  set (p := main_prepare Demo.build_dir Demo.safe_load Demo.pandoc
              (World (fs w) (trace w ++ banner))).
  set (r1 := build_epub Demo.build_dir Demo.pandoc chapters p.2).
  refine (proj2 (single_format_runs_one_builder Demo.build_dir Demo.safe_load
                   Demo.pandoc EPUB w p.2 r1.2 chapters true _ _));
    vm_compute; reflexivity.
Defined.

(** X3 on the book: the working converter passes the check. *)
Lemma check_pandoc_verdict_witness :
  (check_pandoc Demo.pandoc (Demo.start Demo.tree)).1 = Ok true.
Proof.
  apply (proj2 (proj1 (proj2 (proj2
           (check_pandoc_verdict Demo.pandoc (Demo.start Demo.tree)))))).
  eexists. reflexivity.
Defined.

(** X4 on the book: the PDF conversion ends with code 43. *)
Lemma builder_reflects_returncode_witness :
  (build_pdf Demo.build_dir Demo.pandoc_no_latex [] (Demo.start Demo.built_tree)).1
  = Ok false.
Proof.
  refine (f_equal fst
            (builder_reflects_returncode Demo.build_dir Demo.pandoc_no_latex PDF []
               (Demo.start Demo.built_tree)
               (World Demo.built_tree [Print (MsgBuilding PDF)]) 43 "" _ _));
    reflexivity.
Defined.

(** X5 on the book: a number among the chapter names. *)
Lemma get_chapter_paths_type_error_witness :
  (get_chapter_paths Demo.build_dir
     (PyList [PyStr "intro.md"; PyStr "ghost.md"; PyInt 3; PyStr "notes.md"])
     (Demo.start Demo.tree)).1 = Raise TypeError.
Proof.
  refine (f_equal fst
            (get_chapter_paths_type_error Demo.build_dir (Demo.start Demo.tree)
               ["intro.md"; "ghost.md"] (PyInt 3) [PyStr "notes.md"] _ _)).
  - repeat constructor.
  - discriminate.
Defined.


(** X7 on a manifest whose "appendices" key is left empty. *)
Lemma load_chapters_non_list_field_witness :
  let parse (_ : string) :=
    Ok (PyDict [(PyStr "chapters", PyList [PyStr "intro.md"]);
                (PyStr "appendices", PyNone)]) in
  (load_chapters Demo.build_dir parse (Demo.start Demo.tree)).1 = Raise TypeError.
Proof.
  intros parse.
  refine (f_equal fst
            (load_chapters_non_list_field Demo.build_dir parse (Demo.start Demo.tree)
               "book"
               [(PyStr "chapters", PyList [PyStr "intro.md"]);
                (PyStr "appendices", PyNone)]
               [PyStr "intro.md"] PyNone _ _ _ _)).
  - vm_compute. reflexivity.
  - reflexivity.
  - discriminate.
  - left. split; [left|]; reflexivity.
Defined.

(** X8 on the book. *)
Lemma prepare_resolves_manifest_witness :
  (main_prepare Demo.build_dir Demo.safe_load Demo.pandoc (Demo.start Demo.tree)).1
  = Ok [["book"; "intro.md"]; ["book"; "notes.md"]].
Proof.
  assert (Hfound : List.filter (present (DOCS_DIR Demo.build_dir) Demo.tree)
                      ["intro.md"; "ghost.md"; "notes.md"] = ["intro.md"; "notes.md"])
    by (vm_compute; reflexivity).
  refine (eq_trans (f_equal fst
            (prepare_resolves_manifest Demo.build_dir Demo.safe_load Demo.pandoc
               (Demo.start Demo.tree) "pandoc 3.1.9
Features: +server +lua" Demo.tree "book"
               [(PyStr "chapters", PyList [PyStr "intro.md"; PyStr "ghost.md"]);
                (PyStr "appendices", PyList [PyStr "notes.md"])]
               [PyStr "intro.md"; PyStr "ghost.md"] [PyStr "notes.md"]
               ["intro.md"; "ghost.md"; "notes.md"] _ _ _ _ _ _ _ _ _)) _);
    solve [ repeat constructor
          | reflexivity
          | vm_compute; reflexivity
          | left; reflexivity
          | rewrite Hfound; discriminate
          | right; split; vm_compute; reflexivity
          | cbn [fst]; rewrite Hfound; reflexivity ].
Defined.

(** X9 on the book before any build. *)
Lemma html_prepare_then_clean_restores_witness :
  exists w1 w2 w3,
    ensure_dist_dir Demo.build_dir (Demo.start Demo.tree) = (Ok tt, w1) /\
    build_html_prepare Demo.build_dir w1 = (Ok tt, w2) /\
    clean Demo.build_dir w2 = (Ok tt, w3) /\
    fs w3 = Demo.tree.
Proof.
  apply (html_prepare_then_clean_restores Demo.build_dir (Demo.start Demo.tree)).
  - apply (bool_decide_unpack (wf_fs Demo.tree)). vm_compute. exact I.
  - vm_compute. reflexivity.
  - vm_compute. reflexivity.
  - intros content. vm_compute. discriminate.
Defined.

(** X10 on the book after a build. *)
Lemma clean_twice_witness :
  exists w1,
    clean Demo.build_dir (Demo.start Demo.built_tree) = (Ok tt, w1) /\
    clean Demo.build_dir w1 =
      (Ok tt, World (fs w1) (trace w1 ++ [Print MsgCleaning; Print MsgAlreadyClean])).
Proof.
  apply (clean_twice Demo.build_dir (Demo.start Demo.built_tree)).
  left. vm_compute. reflexivity.
Defined.

(** X11 on a built book where "images" has become a regular file. *)
Lemma images_regular_file_loses_copy_witness :
  let m := <[["book"; "images"] := File "oops"]> Demo.built_tree in
  (build_html Demo.build_dir Demo.pandoc [] (Demo.start m)).1
  = Raise NotADirectoryError.
Proof.
  intros m.
  refine (f_equal fst
            (proj1 (images_regular_file_loses_copy Demo.build_dir Demo.pandoc []
                      (Demo.start m) "oops" _ _ _))).
  - vm_compute. reflexivity.
  - vm_compute. reflexivity.
  - vm_compute. reflexivity.
Defined.

(** X12 on the book, with the working converter. *)
Lemma main_exit_status_witness :
  let r := main Demo.build_dir Demo.safe_load Demo.pandoc CmdAll (Demo.start Demo.tree) in
  (exit_status r.1 = 0%Z /\ r.1 = Ok tt) \/
  (exit_status r.1 = 1%Z /\ exists e, r.1 = Raise e).
Proof.
  apply (main_exit_status Demo.build_dir Demo.safe_load Demo.pandoc).
  - intros cmd cwd m e H. discriminate.
  - intros text e H. unfold Demo.safe_load in H.
    destruct (String.eqb text "book"); [discriminate|].
    destruct (String.eqb text "ghosts"); [discriminate|].
    destruct (String.eqb text ""); [discriminate|].
    injection H as <-. exact I.
Defined.
